(** * konke-ha-proxy: the gateway session engine of [proxy.go]

    A shallow embedding of [proxy.go] and the properties of its
    specification.  Go strings are byte strings ([string], one [ascii] per
    byte); Go maps with string keys are [gmap string _]; the methods of
    [*Proxy] are functions in a small state monad over the proxy record and
    the trace of the effects performed so far. *)

From Stdlib Require Import ZArith NArith String Ascii List Bool Lia.
From Stdlib Require Import DecimalString DecimalZ.
From stdpp Require Import base option gmap strings list.

Open Scope string_scope.
Open Scope list_scope.

#[local] Set Warnings "-register-all".

(** ** Go library primitives used by [proxy.go] *)

Module GoStrings.

(** The numeric value of a byte. *)
Definition byte (c : ascii) : N := N_of_ascii c.

(** The slices [s[n:]] and [s[:n]] (clipped to the length of [s]). *)
Fixpoint slice_from (n : nat) (s : string) : string :=
  match n, s with
  | S n', String _ r => slice_from n' r
  | _, _ => s
  end.

Fixpoint slice_to (n : nat) (s : string) : string :=
  match n, s with
  | S n', String c r => String c (slice_to n' r)
  | _, _ => EmptyString
  end.

(** [strings.HasPrefix(s, prefix)]. *)
Definition HasPrefix (s prefix : string) : bool := String.prefix prefix s.

(** [strings.TrimPrefix(s, prefix)]: [s] without the leading [prefix], or
    [s] itself when it does not start with [prefix]. *)
Definition TrimPrefix (s prefix : string) : string :=
  if HasPrefix s prefix
  then slice_from (String.length prefix) s
  else s.

(** [strings.Split(s, sep)] for a one-byte separator: the substrings of [s]
    between the occurrences of [sep]; [n] separators give [n + 1] pieces,
    and the empty string gives one empty piece. *)
Fixpoint Split (s : string) (sep : ascii) : list string :=
  match s with
  | EmptyString => [EmptyString]
  | String c r =>
      if Ascii.eqb c sep then EmptyString :: Split r sep
      else match Split r sep with
           | p :: ps => String c p :: ps
           | [] => [String c EmptyString]
           end
  end.

(** [strconv.Itoa] and the [%d] verb of [fmt.Sprintf]. *)
Definition Itoa (z : Z) : string := NilZero.string_of_int (Z.to_int z).

(** Does the byte [c] occur in [s]? *)
Fixpoint contains_byte (c : ascii) (s : string) : bool :=
  match s with
  | EmptyString => false
  | String d r => Ascii.eqb d c || contains_byte c r
  end.

End GoStrings.

Import GoStrings.

(** ** [unicode/utf8] *)

Module utf8.

Definition RuneError : N := 0xFFFD.
Definition MaxRune : N := 0x10FFFF.

(** The table [first] with [acceptRanges]: for a leading byte of a
    multi-byte sequence, the length of the sequence and the range accepted
    for its second byte. *)
Definition first (s0 : N) : option (nat * N * N) :=
  if (s0 <? 0xC2)%N then None
  else if (s0 <? 0xE0)%N then Some (2%nat, 0x80%N, 0xBF%N)
  else if (s0 =? 0xE0)%N then Some (3%nat, 0xA0%N, 0xBF%N)
  else if (s0 <? 0xED)%N then Some (3%nat, 0x80%N, 0xBF%N)
  else if (s0 =? 0xED)%N then Some (3%nat, 0x80%N, 0x9F%N)
  else if (s0 <? 0xF0)%N then Some (3%nat, 0x80%N, 0xBF%N)
  else if (s0 =? 0xF0)%N then Some (4%nat, 0x90%N, 0xBF%N)
  else if (s0 <? 0xF4)%N then Some (4%nat, 0x80%N, 0xBF%N)
  else if (s0 =? 0xF4)%N then Some (4%nat, 0x80%N, 0x8F%N)
  else None.

Definition cont (b : N) : bool := (0x80 <=? b)%N && (b <=? 0xBF)%N.

(** [utf8.DecodeRuneInString]: the first rune of [s] and its width in
    bytes; [(RuneError, 1)] for an invalid encoding. *)
Definition DecodeRune (s : string) : N * nat :=
  match s with
  | EmptyString => (RuneError, 0)
  | String c0 r0 =>
      let s0 := byte c0 in
      if (s0 <? 0x80)%N then (s0, 1)
      else match first s0 with
      | None => (RuneError, 1)
      | Some (sz, lo, hi) =>
          if (String.length s <? sz)%nat then (RuneError, 1)
          else match r0 with
          | EmptyString => (RuneError, 1)
          | String c1 r1 =>
              let s1 := byte c1 in
              if (s1 <? lo)%N || (hi <? s1)%N then (RuneError, 1)
              else if (sz <=? 2)%nat
              then (N.lor (N.shiftl (N.land s0 0x1F) 6) (N.land s1 0x3F), 2)
              else match r1 with
              | EmptyString => (RuneError, 1)
              | String c2 r2 =>
                  let s2 := byte c2 in
                  if negb (cont s2) then (RuneError, 1)
                  else if (sz <=? 3)%nat
                  then (N.lor (N.lor (N.shiftl (N.land s0 0x0F) 12)
                                     (N.shiftl (N.land s1 0x3F) 6))
                              (N.land s2 0x3F), 3)
                  else match r2 with
                  | EmptyString => (RuneError, 1)
                  | String c3 _ =>
                      let s3 := byte c3 in
                      if negb (cont s3) then (RuneError, 1)
                      else (N.lor (N.lor (N.lor
                                     (N.shiftl (N.land s0 0x07) 18)
                                     (N.shiftl (N.land s1 0x3F) 12))
                                     (N.shiftl (N.land s2 0x3F) 6))
                                  (N.land s3 0x3F), 4)
                  end
              end
          end
      end
  end.

Definition low6 (r : N) : ascii := ascii_of_N (N.lor 0x80 (N.land r 0x3F)).

(** [utf8.AppendRune]: the UTF-8 encoding of the rune [r]; surrogates and
    values above [MaxRune] are encoded as [RuneError]. *)
Definition EncodeRune (r : N) : string :=
  let enc3 r := String (ascii_of_N (N.lor 0xE0 (N.shiftr r 12)))
                  (String (low6 (N.shiftr r 6)) (String (low6 r) EmptyString)) in
  if (r <=? 0x7F)%N then String (ascii_of_N r) EmptyString
  else if (r <=? 0x7FF)%N
  then String (ascii_of_N (N.lor 0xC0 (N.shiftr r 6))) (String (low6 r) EmptyString)
  else if (MaxRune <? r)%N || ((0xD800 <=? r)%N && (r <=? 0xDFFF)%N)
  then enc3 RuneError
  else if (r <=? 0xFFFF)%N then enc3 r
  else String (ascii_of_N (N.lor 0xF0 (N.shiftr r 18)))
         (String (low6 (N.shiftr r 12))
            (String (low6 (N.shiftr r 6)) (String (low6 r) EmptyString))).

(** [utf8.ValidString], with the recursion bounded by [fuel] (the length of
    the string is enough). *)
Fixpoint ValidString_loop (fuel : nat) (s : string) : bool :=
  match fuel with
  | O => match s with EmptyString => true | _ => false end
  | S f =>
      match s with
      | EmptyString => true
      | String c0 r0 =>
          if (byte c0 <? 0x80)%N then ValidString_loop f r0
          else match DecodeRune s with
               | (_, 0) | (_, 1) => false
               | (_, size) => ValidString_loop f (slice_from size s)
               end
      end
  end.

Definition ValidString (s : string) : bool :=
  ValidString_loop (String.length s) s.

End utf8.

(** ** [encoding/json]: values and [json.Marshal] *)

Module json.

(** What an [interface{}] field holds: [nil], or a value of one of the
    dynamic types that [json.Unmarshal] stores there ([bool], [float64],
    [string], [[]interface{}], [map[string]interface{}]).  A
    [map[string]string] built by the program is the [VMap] of its entries
    with [VString] values: the model does not tell it from the
    [map[string]interface{}] with the same entries, which is what it is
    decoded to.  A map is kept as the list of its entries in the order
    [json.Marshal] writes them (sorted by key, no key twice).  A [float64]
    is identified with the JSON literal it was read from; its range and
    its formatting are outside the model. *)
Inductive value : Type :=
| VNil
| VBool (b : bool)
| VNumber (lit : string)
| VString (s : string)
| VArray (l : list value)
| VMap (m : list (string * value)).

Definition dquote : ascii := "034"%char.
Definition backslash : ascii := "092"%char.

(** The text [s] between two double quotes. *)
Definition quoted (s : string) : string :=
  String dquote (s +:+ String dquote EmptyString).

(** [hex[n]] for the table [hex = "0123456789abcdef"]. *)
Definition hex (n : N) : ascii :=
  match String.get (N.to_nat n) "0123456789abcdef" with
  | Some c => c
  | None => "0"%char
  end.

(** [htmlSafeSet[b]] for a byte below [utf8.RuneSelf]. *)
Definition htmlSafeSet (b : N) : bool :=
  (0x20 <=? b)%N &&
  negb ((b =? 0x22)%N || (b =? 0x26)%N || (b =? 0x3C)%N ||
        (b =? 0x3E)%N || (b =? 0x5C)%N).

(** What [appendString] writes for a byte below [utf8.RuneSelf] (the short
    escapes for backspace and form feed are those of Go 1.22 and later;
    before, they were written [\u0008] and [\u000c], which reads back the
    same). *)
Definition escape_byte (c : ascii) : string :=
  let b := byte c in
  if htmlSafeSet b then String c EmptyString
  else if (b =? 0x5C)%N || (b =? 0x22)%N then String backslash (String c EmptyString)
  else if (b =? 0x08)%N then String backslash "b"
  else if (b =? 0x0C)%N then String backslash "f"
  else if (b =? 0x0A)%N then String backslash "n"
  else if (b =? 0x0D)%N then String backslash "r"
  else if (b =? 0x09)%N then String backslash "t"
  else String backslash
         (String "u" (String "0" (String "0"
            (String (hex (N.shiftr b 4)) (String (hex (N.land b 0xF)) EmptyString))))).

(** The loop of [appendString] (with HTML escaping, as [json.Marshal]
    calls it), between the two quotes. *)
Fixpoint appendString_loop (fuel : nat) (s : string) : string :=
  match fuel with
  | O => EmptyString
  | S f =>
      match s with
      | EmptyString => EmptyString
      | String c r =>
          if (byte c <? 0x80)%N then escape_byte c +:+ appendString_loop f r
          else
            let '(rn, size) := utf8.DecodeRune s in
            if (rn =? utf8.RuneError)%N && (size =? 1)%nat
            then String backslash "ufffd" +:+ appendString_loop f (slice_from size s)
            else if (rn =? 0x2028)%N || (rn =? 0x2029)%N
            then String backslash "u202" +:+
                 String (hex (N.land rn 0xF)) (appendString_loop f (slice_from size s))
            else slice_to size s +:+ appendString_loop f (slice_from size s)
      end
  end.

Definition appendString (s : string) : string :=
  String dquote (appendString_loop (String.length s) s +:+ String dquote EmptyString).

(** The encoder for a value held by an [interface{}]. *)
Fixpoint marshal_value (v : value) : string :=
  match v with
  | VNil => "null"
  | VBool true => "true"
  | VBool false => "false"
  | VNumber lit => lit
  | VString s => appendString s
  | VArray l => "[" +:+ String.concat "," (map marshal_value l) +:+ "]"
  | VMap m =>
      "{" +:+ String.concat ","
                (map (fun kv => appendString (fst kv) +:+ ":" +:+ marshal_value (snd kv)) m)
          +:+ "}"
  end.

(** *** [json.Unmarshal]: the syntax of JSON texts *)

Definition isSpace (c : ascii) : bool :=
  let b := byte c in
  (b =? 0x20)%N || (b =? 0x09)%N || (b =? 0x0D)%N || (b =? 0x0A)%N.

Fixpoint skip_space (s : string) : string :=
  match s with
  | String c r => if isSpace c then skip_space r else s
  | EmptyString => EmptyString
  end.

Definition is_digit (c : ascii) : bool :=
  (0x30 <=? byte c)%N && (byte c <=? 0x39)%N.

(** The value of a hexadecimal digit. *)
Definition hex_val (c : ascii) : option N :=
  let b := byte c in
  if (0x30 <=? b)%N && (b <=? 0x39)%N then Some (b - 0x30)%N
  else if (0x61 <=? b)%N && (b <=? 0x66)%N then Some (b - 0x61 + 10)%N
  else if (0x41 <=? b)%N && (b <=? 0x46)%N then Some (b - 0x41 + 10)%N
  else None.

(** [getu4]: the rune of a leading [\uXXXX] escape, with what follows it. *)
Definition getu4 (s : string) : option (N * string) :=
  match s with
  | String e (String u (String a (String b (String c (String d r))))) =>
      if Ascii.eqb e backslash && Ascii.eqb u "u"%char then
        match hex_val a, hex_val b, hex_val c, hex_val d with
        | Some x3, Some x2, Some x1, Some x0 =>
            Some (x3 * 4096 + x2 * 256 + x1 * 16 + x0, r)%N
        | _, _, _, _ => None
        end
      else None
  | _ => None
  end.

(** [utf16.IsSurrogate] and [utf16.DecodeRune]. *)
Definition IsSurrogate (r : N) : bool := (0xD800 <=? r)%N && (r <? 0xE000)%N.

Definition utf16_DecodeRune (r1 r2 : N) : N :=
  if (0xD800 <=? r1)%N && (r1 <? 0xDC00)%N && (0xDC00 <=? r2)%N && (r2 <? 0xE000)%N
  then ((r1 - 0xD800) * 1024 + (r2 - 0xDC00) + 0x10000)%N
  else utf8.RuneError.

Definition prepend (p : string) (o : option (string * string)) : option (string * string) :=
  match o with
  | Some (t, rest) => Some (p +:+ t, rest)
  | None => None
  end.

(** One step of reading a string literal after its opening quote: the
    bytes denoted by the next byte or escape, put before what [rest] makes
    of the text after it; the closing quote ends the literal.  This is the
    scanner's string states and [unquote] in one pass: an escape other than
    the eight of JSON and [\uXXXX], a control character or the end of the
    input is an error; a lone surrogate escape and an invalid UTF-8 byte
    become [RuneError]. *)
Definition unquote_step (rest : string -> option (string * string)) (s : string)
  : option (string * string) :=
  match s with
  | EmptyString => None
  | String c r =>
      let b := byte c in
      if (b =? 0x22)%N then Some (EmptyString, r)
      else if (b =? 0x5C)%N then
        match r with
        | EmptyString => None
        | String e r' =>
            let x := byte e in
            if (x =? 0x22)%N || (x =? 0x5C)%N || (x =? 0x2F)%N
            then prepend (String e EmptyString) (rest r')
            else if (x =? 0x62)%N then prepend (String "008"%char EmptyString) (rest r')
            else if (x =? 0x66)%N then prepend (String "012"%char EmptyString) (rest r')
            else if (x =? 0x6E)%N then prepend (String "010"%char EmptyString) (rest r')
            else if (x =? 0x72)%N then prepend (String "013"%char EmptyString) (rest r')
            else if (x =? 0x74)%N then prepend (String "009"%char EmptyString) (rest r')
            else if (x =? 0x75)%N then
              match getu4 s with
              | None => None
              | Some (rr, r1) =>
                  if IsSurrogate rr then
                    match getu4 r1 with
                    | Some (rr1, r2) =>
                        let dec := utf16_DecodeRune rr rr1 in
                        if (dec =? utf8.RuneError)%N
                        then prepend (utf8.EncodeRune utf8.RuneError) (rest r1)
                        else prepend (utf8.EncodeRune dec) (rest r2)
                    | None => prepend (utf8.EncodeRune utf8.RuneError) (rest r1)
                    end
                  else prepend (utf8.EncodeRune rr) (rest r1)
              end
            else None
        end
      else if (b <? 0x20)%N then None
      else if (b <? 0x80)%N then prepend (String c EmptyString) (rest r)
      else
        let '(rr, size) := utf8.DecodeRune s in
        prepend (utf8.EncodeRune rr) (rest (slice_from size s))
  end.

(** A string literal after its opening quote: the text it denotes and what
    follows the closing quote. *)
Fixpoint unquote_loop (fuel : nat) (s : string) : option (string * string) :=
  match fuel with
  | O => None
  | S f => unquote_step (unquote_loop f) s
  end.

Definition unquote (s : string) : option (string * string) :=
  unquote_loop (S (String.length s)) s.

(** The longest run of digits at the head of [s], and the rest. *)
Fixpoint span_digits (s : string) : string * string :=
  match s with
  | String c r =>
      if is_digit c then let '(ds, rest) := span_digits r in (String c ds, rest)
      else (EmptyString, s)
  | EmptyString => (EmptyString, EmptyString)
  end.

(** A number literal at the head of [s]: an optional [-], [0] or a run of
    digits not starting with [0], an optional fraction, an optional
    exponent. *)
Definition scan_number (s : string) : option (string * string) :=
  let '(sign, s1) :=
    match s with
    | String c r => if Ascii.eqb c "-"%char then ("-", r) else (EmptyString, s)
    | EmptyString => (EmptyString, s)
    end in
  match s1 with
  | EmptyString => None
  | String c r =>
      if negb (is_digit c) then None
      else
        let '(ip, s2) :=
          if Ascii.eqb c "0"%char then (String c EmptyString, r)
          else let '(ds, rest) := span_digits r in (String c ds, rest) in
        let frac :=
          match s2 with
          | String d r2 =>
              if Ascii.eqb d "."%char then
                let '(ds, rest) := span_digits r2 in
                if String.eqb ds EmptyString then None else Some (String d ds, rest)
              else Some (EmptyString, s2)
          | EmptyString => Some (EmptyString, s2)
          end in
        match frac with
        | None => None
        | Some (fp, s3) =>
            let expo :=
              match s3 with
              | String e r3 =>
                  if Ascii.eqb e "e"%char || Ascii.eqb e "E"%char then
                    let '(sg, r4) :=
                      match r3 with
                      | String g r' =>
                          if Ascii.eqb g "+"%char || Ascii.eqb g "-"%char
                          then (String g EmptyString, r')
                          else (EmptyString, r3)
                      | EmptyString => (EmptyString, r3)
                      end in
                    let '(ds, rest) := span_digits r4 in
                    if String.eqb ds EmptyString then None
                    else Some (String e (sg +:+ ds), rest)
                  else Some (EmptyString, s3)
              | EmptyString => Some (EmptyString, s3)
              end in
            match expo with
            | None => None
            | Some (ep, s4) => Some (sign +:+ ip +:+ fp +:+ ep, s4)
            end
        end
  end.

(** The rest of a literal name ([true], [false], [null]) after its first
    letter. *)
Definition expect (name : string) (s : string) (v : value) : option (value * string) :=
  if String.prefix name s then Some (v, slice_from (String.length name) s) else None.

(** One step of reading a JSON value at the head of [s] (after white
    space) as a tree, with what follows it; [members] and [elements] read
    the inside of an object and of an array.  A [VMap] holds the members of
    the object as they are written, in order, a key possibly more than
    once. *)
Definition value_step
    (members : string -> option (list (string * value) * string))
    (elements : string -> option (list value * string))
    (s : string) : option (value * string) :=
  match skip_space s with
  | EmptyString => None
  | String c r =>
      let b := byte c in
      if (b =? 0x22)%N then
        match unquote r with
        | Some (t, rest) => Some (VString t, rest)
        | None => None
        end
      else if (b =? 0x7B)%N then
        match skip_space r with
        | String d r' =>
            if (byte d =? 0x7D)%N then Some (VMap [], r')
            else match members r with
                 | Some (m, rest) => Some (VMap m, rest)
                 | None => None
                 end
        | EmptyString => None
        end
      else if (b =? 0x5B)%N then
        match skip_space r with
        | String d r' =>
            if (byte d =? 0x5D)%N then Some (VArray [], r')
            else match elements r with
                 | Some (l, rest) => Some (VArray l, rest)
                 | None => None
                 end
        | EmptyString => None
        end
      else if (b =? 0x74)%N then expect "rue" r (VBool true)
      else if (b =? 0x66)%N then expect "alse" r (VBool false)
      else if (b =? 0x6E)%N then expect "ull" r VNil
      else match scan_number (String c r) with
           | Some (lit, rest) => Some (VNumber lit, rest)
           | None => None
           end
  end.

(** The members of an object after its [{] or after a comma: a key, a
    colon, a value, then a comma and more members, or the closing [}]. *)
Definition members_step
    (val : string -> option (value * string))
    (members : string -> option (list (string * value) * string))
    (s : string) : option (list (string * value) * string) :=
  match skip_space s with
  | String q r =>
      if negb (byte q =? 0x22)%N then None
      else match unquote r with
      | None => None
      | Some (k, r1) =>
          match skip_space r1 with
          | String colon r2 =>
              if negb (byte colon =? 0x3A)%N then None
              else match val r2 with
              | None => None
              | Some (v, r3) =>
                  match skip_space r3 with
                  | String d r4 =>
                      if (byte d =? 0x2C)%N then
                        match members r4 with
                        | Some (m, rest) => Some ((k, v) :: m, rest)
                        | None => None
                        end
                      else if (byte d =? 0x7D)%N then Some ([(k, v)], r4)
                      else None
                  | EmptyString => None
                  end
              end
          | EmptyString => None
          end
      end
  | EmptyString => None
  end.

(** The elements of an array after its [[] or after a comma. *)
Definition elements_step
    (val : string -> option (value * string))
    (elements : string -> option (list value * string))
    (s : string) : option (list value * string) :=
  match val s with
  | None => None
  | Some (v, r1) =>
      match skip_space r1 with
      | String d r2 =>
          if (byte d =? 0x2C)%N then
            match elements r2 with
            | Some (l, rest) => Some (v :: l, rest)
            | None => None
            end
          else if (byte d =? 0x5D)%N then Some ([v], r2)
          else None
      | EmptyString => None
      end
  end.

(** The recursive-descent reader; [fuel] bounds the depth of the
    recursion. *)
Fixpoint parse_value (fuel : nat) (s : string) : option (value * string) :=
  match fuel with
  | O => None
  | S f => value_step (parse_members f) (parse_elements f) s
  end
with parse_members (fuel : nat) (s : string) : option (list (string * value) * string) :=
  match fuel with
  | O => None
  | S f => members_step (parse_value f) (parse_members f) s
  end
with parse_elements (fuel : nat) (s : string) : option (list value * string) :=
  match fuel with
  | O => None
  | S f => elements_step (parse_value f) (parse_elements f) s
  end.

(** A whole text: one value, with white space around it and nothing
    else. *)
Definition parse (s : string) : option value :=
  match parse_value (2 * String.length s + 2) s with
  | Some (v, rest) =>
      match skip_space rest with
      | EmptyString => Some v
      | _ => None
      end
  | None => None
  end.

(** *** [json.Unmarshal]: storing a tree *)

(** Setting key [k] in a map kept sorted by key: an older entry for [k] is
    replaced. *)
Fixpoint map_set (k : string) (v : value) (m : list (string * value))
  : list (string * value) :=
  match m with
  | [] => [(k, v)]
  | (k', v') :: m' =>
      match String.compare k k' with
      | Lt => (k, v) :: m
      | Eq => (k, v) :: m'
      | Gt => (k', v') :: map_set k v m'
      end
  end.

(** What is stored in an [interface{}] for a tree: objects become maps
    (a later member replaces an earlier one with the same key). *)
Fixpoint to_interface (v : value) : value :=
  match v with
  | VArray l => VArray (map to_interface l)
  | VMap m =>
      VMap (fold_left (fun acc kv => map_set (fst kv) (to_interface (snd kv)) acc) m [])
  | _ => v
  end.

(** [strconv.ParseInt(lit, 10, 64)] on a JSON number literal. *)
Definition parse_int64 (lit : string) : option Z :=
  match NilZero.int_of_string lit with
  | Some d =>
      let z := Z.of_int d in
      if (- 2 ^ 63 <=? z)%Z && (z <? 2 ^ 63)%Z then Some z else None
  | None => None
  end.

(** [foldName]: the key folded for the case-insensitive match of field
    names.  Of the runes outside ASCII only U+017F and U+212A fold to an
    ASCII letter ([S] and [K]); the others stay outside ASCII. *)
Definition fold_byte (c : ascii) : ascii :=
  let b := byte c in
  if (0x61 <=? b)%N && (b <=? 0x7A)%N then ascii_of_N (b - 0x20) else c.

Definition foldRune (r : N) : N :=
  if (r =? 0x17F)%N then 0x53%N
  else if (r =? 0x212A)%N then 0x4B%N
  else r.

Fixpoint foldName_loop (fuel : nat) (s : string) : string :=
  match fuel with
  | O => EmptyString
  | S f =>
      match s with
      | EmptyString => EmptyString
      | String c r =>
          if (byte c <? 0x80)%N then String (fold_byte c) (foldName_loop f r)
          else
            let '(rn, size) := utf8.DecodeRune s in
            utf8.EncodeRune (foldRune rn) +:+ foldName_loop f (slice_from size s)
      end
  end.

Definition foldName (s : string) : string := foldName_loop (String.length s) s.

End json.

(** ** The data of [proxy.go] *)

(** [Config] (the YAML tags are not modelled). *)
Record Config : Type := {
  Gateway_Host : string;
  Gateway_Port : Z;
  Gateway_Username : string;
  Gateway_Password : string;
  Gateway_ZKID : string;
  Gateway_DeviceCount : Z;
  Gateway_HeartbeatInterval : Z;
  HTTPServer_Host : string;
  HTTPServer_Port : Z;
  HomeAssistant_Host : string;
  HomeAssistant_Port : Z;
  HomeAssistant_Token : string;
  Devices_Curtains : gmap string string;
  Devices_Lights : gmap string string;
  Logging_Level : string;
  Logging_File : string
}.

(** [Message]. *)
Record Message : Type := {
  NodeID : string;
  Opcode : string;
  Arg : json.value;
  Requester : string;
  ReqID : Z;
  Status : string
}.

(** The members of the object that [json.Marshal] writes for a [*Message]:
    the fields in declaration order under their tags, [reqId] and [status]
    left out when zero ([omitempty]). *)
Definition members_of (msg : Message) : list (string * json.value) :=
  [("nodeid", json.VString (NodeID msg));
   ("opcode", json.VString (Opcode msg));
   ("arg", Arg msg);
   ("requester", json.VString (Requester msg))]
  ++ (if (ReqID msg =? 0)%Z then [] else [("reqId", json.VNumber (Itoa (ReqID msg)))])
  ++ (if String.eqb (Status msg) EmptyString then []
      else [("status", json.VString (Status msg))]).

(** [json.Marshal(msg)]. *)
Definition json_Marshal (msg : Message) : string :=
  json.marshal_value (json.VMap (members_of msg)).

(** The messages the program builds: every string is valid UTF-8, [ReqID]
    is an [int64], and [Arg] has one of the two shapes that the opcodes
    use, a string or a map of strings (its entries sorted by key, as
    [json.Marshal] writes them). *)
Definition string_entry (kv : string * json.value) : bool :=
  utf8.ValidString (fst kv) &&
  match snd kv with
  | json.VString s => utf8.ValidString s
  | _ => false
  end.

Fixpoint sorted_keys (m : list (string * json.value)) : bool :=
  match m with
  | [] => true
  | kv :: m' =>
      forallb (fun kv' => match String.compare (fst kv) (fst kv') with
                          | Lt => true
                          | _ => false
                          end) m'
      && sorted_keys m'
  end.

Definition expected_shape (v : json.value) : bool :=
  match v with
  | json.VString s => utf8.ValidString s
  | json.VMap m => forallb string_entry m && sorted_keys m
  | _ => false
  end.

Definition well_formed (msg : Message) : bool :=
  utf8.ValidString (NodeID msg) && utf8.ValidString (Opcode msg) &&
  expected_shape (Arg msg) && utf8.ValidString (Requester msg) &&
  (- 2 ^ 63 <=? ReqID msg)%Z && (ReqID msg <? 2 ^ 63)%Z &&
  utf8.ValidString (Status msg).

(** The zero [Message] of [var msg Message]. *)
Definition zero_Message : Message :=
  {| NodeID := EmptyString; Opcode := EmptyString; Arg := json.VNil;
     Requester := EmptyString; ReqID := 0; Status := EmptyString |}.

(** Storing a tree in a [string] field: a string is stored, [null] leaves
    the field as it is, anything else is an [UnmarshalTypeError]. *)
Definition store_string (v : json.value) (old : string) : option string :=
  match v with
  | json.VString s => Some s
  | json.VNil => Some old
  | _ => None
  end.

(** Storing in the [int64] field [ReqID]. *)
Definition store_int64 (v : json.value) (old : Z) : option Z :=
  match v with
  | json.VNumber lit => json.parse_int64 lit
  | json.VNil => Some old
  | _ => None
  end.

(** One member of the object stored in [msg]: the field whose tag matches
    the key (whatever the case of its letters) receives the value; a member
    with no such field is skipped. *)
Definition store_field (key : string) (v : json.value) (msg : Message) : option Message :=
  let name := json.foldName key in
  if String.eqb name "NODEID" then
    match store_string v (NodeID msg) with
    | Some s => Some {| NodeID := s; Opcode := Opcode msg; Arg := Arg msg;
                        Requester := Requester msg; ReqID := ReqID msg;
                        Status := Status msg |}
    | None => None
    end
  else if String.eqb name "OPCODE" then
    match store_string v (Opcode msg) with
    | Some s => Some {| NodeID := NodeID msg; Opcode := s; Arg := Arg msg;
                        Requester := Requester msg; ReqID := ReqID msg;
                        Status := Status msg |}
    | None => None
    end
  else if String.eqb name "ARG" then
    Some {| NodeID := NodeID msg; Opcode := Opcode msg; Arg := json.to_interface v;
            Requester := Requester msg; ReqID := ReqID msg; Status := Status msg |}
  else if String.eqb name "REQUESTER" then
    match store_string v (Requester msg) with
    | Some s => Some {| NodeID := NodeID msg; Opcode := Opcode msg; Arg := Arg msg;
                        Requester := s; ReqID := ReqID msg; Status := Status msg |}
    | None => None
    end
  else if String.eqb name "REQID" then
    match store_int64 v (ReqID msg) with
    | Some z => Some {| NodeID := NodeID msg; Opcode := Opcode msg; Arg := Arg msg;
                        Requester := Requester msg; ReqID := z; Status := Status msg |}
    | None => None
    end
  else if String.eqb name "STATUS" then
    match store_string v (Status msg) with
    | Some s => Some {| NodeID := NodeID msg; Opcode := Opcode msg; Arg := Arg msg;
                        Requester := Requester msg; ReqID := ReqID msg; Status := s |}
    | None => None
    end
  else Some msg.

Definition store_members (members : list (string * json.value)) (msg : Message)
  : option Message :=
  fold_left (fun acc kv =>
               match acc with
               | Some m => store_field (fst kv) (snd kv) m
               | None => None
               end) members (Some msg).

(** [json.Unmarshal(data, &msg)] into a fresh [Message]: [Some] of the
    message when the error is nil.  The text must be one JSON value; an
    object is stored member by member, [null] stores nothing, any other
    value is an [UnmarshalTypeError], and so is a member of the wrong type
    (the decoder goes on, but the error is returned). *)
Definition json_Unmarshal (data : string) : option Message :=
  match json.parse data with
  | Some (json.VMap members) => store_members members zero_Message
  | Some json.VNil => Some zero_Message
  | _ => None
  end.

(** [fmt.Sprintf("!%s$", string(data))] in [sendMessage]. *)
Definition frame (data : string) : string := "!" +:+ data +:+ "$".

(** [parseMessages] (it does not use its receiver). *)
Definition parseMessages (buffer : string) : list Message :=
  let parts := Split buffer "$"%char in
  fold_left
    (fun (messages : list Message) part =>
       if HasPrefix part "!" then
         let jsonStr := TrimPrefix part "!" in
         match json_Unmarshal jsonStr with
         | Some msg => messages ++ [msg]
         | None => messages
         end
       else messages)
    parts [].

(** The frames of the bodies [bodies], one after the other. *)
Definition stream (bodies : list string) : string :=
  fold_right (fun body rest => frame body +:+ rest) EmptyString bodies.

(** What the loop of [parseMessages] makes of one fragment: the message of
    a fragment that starts with [!] and whose remainder [json.Unmarshal]
    accepts, nothing for any other fragment. *)
Definition accept (part : string) : option Message :=
  match part with
  | String c body => if Ascii.eqb c "!"%char then json_Unmarshal body else None
  | EmptyString => None
  end.

(** A [net.Conn] value: the connection it denotes and whether [Close] has
    been called on it. *)
Record Conn : Type := { conn_id : nat; conn_closed : bool }.

(** [Proxy].  The field [handlers] is written once by [NewProxy] and never
    again; it is the constant table [handlers] below. *)
Record Proxy : Type := {
  config : Config;
  conn : option Conn;
  devices : gmap string string;
  entity : gmap string string;
  mutex : bool;
  connected : bool
}.

Definition set_conn (c : option Conn) (p : Proxy) : Proxy :=
  {| config := config p; conn := c; devices := devices p; entity := entity p;
     mutex := mutex p; connected := connected p |}.
Definition set_devices (d : gmap string string) (p : Proxy) : Proxy :=
  {| config := config p; conn := conn p; devices := d; entity := entity p;
     mutex := mutex p; connected := connected p |}.
Definition set_entity (e : gmap string string) (p : Proxy) : Proxy :=
  {| config := config p; conn := conn p; devices := devices p; entity := e;
     mutex := mutex p; connected := connected p |}.
Definition set_mutex (b : bool) (p : Proxy) : Proxy :=
  {| config := config p; conn := conn p; devices := devices p; entity := entity p;
     mutex := b; connected := connected p |}.
Definition set_connected (b : bool) (p : Proxy) : Proxy :=
  {| config := config p; conn := conn p; devices := devices p; entity := entity p;
     mutex := mutex p; connected := b |}.

(** [m[k]] on a Go map with string values: the zero value when [k] is
    absent. *)
Definition index (m : gmap string string) (k : string) : string :=
  default EmptyString (m !! k).

(** ** Effects *)

(** An [*http.Request] as [updateHomeAssistant] builds it. *)
Record Request : Type := {
  req_method : string;
  req_url : string;
  req_header : gmap string string;
  req_body : string
}.

Inductive error : Type := ErrDial | ErrWrite.

Inductive Goroutine : Type := GoReceive | GoSendHeartbeat.

(** What the program does to the outside world, in the order it does it.
    [EvPrintln] carries the first argument of the [fmt.Println] call. *)
Inductive Event : Type :=
| EvPrintln (text : string)
| EvDial (addr : string) (ok : bool)
| EvWrite (c : nat) (data : string) (ok : bool)
| EvClose (c : nat)
| EvSleep (seconds : Z)
| EvHTTP (req : Request) (resp : option Z)
| EvGo (g : Goroutine).

Definition is_http (e : Event) : bool :=
  match e with EvHTTP _ _ => true | _ => false end.

Definition is_network (e : Event) : bool :=
  match e with
  | EvDial _ _ | EvWrite _ _ _ | EvClose _ | EvHTTP _ _ => true
  | _ => false
  end.

(** The requests sent to the home-automation sink in a trace. *)
Definition http_calls (tr : list Event) : list Request :=
  omap (fun e => match e with EvHTTP r _ => Some r | _ => None end) tr.

(** The answers of the outside world, each a function of the history so
    far: whether a dial or a socket write succeeds, the status code of an
    HTTP exchange ([None]: [client.Do] returns an error), whether
    [http.NewRequest] can parse a URL, and the clock. *)
Record Env : Type := {
  env_dial : list Event -> string -> bool;
  env_write : list Event -> nat -> string -> bool;
  env_http : list Event -> Request -> option Z;
  env_url_ok : string -> bool;
  env_now : list Event -> Z
}.

Record World : Type := { proxy : Proxy; trace : list Event }.

(** A call returns, or it never does: it blocks on the mutex for ever, it
    panics, or (in the model only) a loop uses up its fuel. *)
Inductive Halt : Type := Blocked | Panicked | OutOfFuel.

Inductive Outcome (A : Type) : Type :=
| Done (a : A) (w : World)
| Stop (h : Halt) (w : World).
Arguments Done {A} a w.
Arguments Stop {A} h w.

Definition M (A : Type) : Type := World -> Outcome A.

#[export] Instance M_ret : MRet M := fun A a w => Done a w.
#[export] Instance M_bind : MBind M := fun A B f m w =>
  match m w with
  | Done a w' => f a w'
  | Stop h w' => Stop h w'
  end.

(** The world an outcome ends in. *)
Definition final {A} (o : Outcome A) : World :=
  match o with Done _ w => w | Stop _ w => w end.

Definition get {A} (f : Proxy -> A) : M A := fun w => Done (f (proxy w)) w.
Definition modify (f : Proxy -> Proxy) : M unit :=
  fun w => Done tt {| proxy := f (proxy w); trace := trace w |}.
Definition history : M (list Event) := fun w => Done (trace w) w.
Definition emit (e : Event) : M unit :=
  fun w => Done tt {| proxy := proxy w; trace := trace w ++ [e] |}.
Definition halt {A} (h : Halt) : M A := fun w => Stop h w.
Definition Println (text : string) : M unit := emit (EvPrintln text).

(** [p.mutex.Lock(); defer p.mutex.Unlock()] around [body].  [sync.Mutex]
    is not reentrant: [Lock] on a locked mutex waits.  The deferred
    [Unlock] also runs when [body] panics. *)
Definition locked {A} (body : M A) : M A := fun w =>
  if mutex (proxy w) then Stop Blocked w
  else match body {| proxy := set_mutex true (proxy w); trace := trace w |} with
       | Done a w' => Done a {| proxy := set_mutex false (proxy w'); trace := trace w' |}
       | Stop Panicked w' =>
           Stop Panicked {| proxy := set_mutex false (proxy w'); trace := trace w' |}
       | Stop h w' => Stop h w'
       end.

(** [NewProxy]. *)
Definition NewProxy (cfg : Config) : Proxy :=
  {| config := cfg; conn := None; devices := ∅; entity := ∅;
     mutex := false; connected := false |}.

(** ** The methods of [*Proxy] *)

Section Engine.

Variable env : Env.

(** [sendMessage]: the frame is [!], the JSON body, [$].  [json.Marshal]
    does not fail on a [Message] of the model.  [p.conn.Write] on a nil
    [net.Conn] panics; on a closed one it returns an error. *)
Definition sendMessage (msg : Message) : M (option error) :=
  locked (
    let data := json_Marshal msg in
    let message := frame data in
    c ← get conn;
    match c with
    | None => halt Panicked
    | Some c =>
        h ← history;
        let ok := negb (conn_closed c) && env_write env h (conn_id c) message in
        emit (EvWrite (conn_id c) message ok);;
        mret (if ok then None else Some ErrWrite)
    end).

(** [login]. *)
Definition login : M (option error) :=
  cfg ← get config;
  sendMessage
    {| NodeID := "*"; Opcode := "LOGIN"; Requester := "HJ_Server";
       Arg := json.VMap
                [("device", json.VString EmptyString);
                 ("password", json.VString (Gateway_Password cfg));
                 ("seq", json.VString EmptyString);
                 ("username", json.VString (Gateway_Username cfg));
                 ("version", json.VString EmptyString);
                 ("zkid", json.VString (Gateway_ZKID cfg))];
       ReqID := 0; Status := EmptyString |}.

(** [connect].  A new connection is named by the length of the history at
    the time of the dial. *)
Definition connect : M (option error) :=
  cfg ← get config;
  let addr := Gateway_Host cfg +:+ ":" +:+ Itoa (Gateway_Port cfg) in
  h ← history;
  let ok := env_dial env h addr in
  emit (EvDial addr ok);;
  if ok then
    modify (set_conn (Some {| conn_id := length h; conn_closed := false |}));;
    modify (set_connected true);;
    Println "Connected to gateway at %s";;
    login
  else mret (Some ErrDial).

(** [handleHeartbeat], [handleSync], [handleLogin]. *)
Definition handleHeartbeat (_ : Message) : M unit :=
  Println "收到心跳响应".

Definition handleSync (_ : Message) : M unit :=
  Println "Received sync response: %v".

Definition handleLogin (msg : Message) : M unit :=
  if String.eqb (Status msg) "success" then Println "Login successful"
  else Println "Login failed".

(** [updateHomeAssistant].  When [http.NewRequest] cannot parse the URL it
    returns a nil request, and [req.Header.Set] on it panics. *)
Definition updateHomeAssistant (entityID state : string) : M unit :=
  cfg ← get config;
  let url := "http://" +:+ HomeAssistant_Host cfg +:+ ":" +:+
             Itoa (HomeAssistant_Port cfg) +:+ "/api/states/" +:+ entityID in
  let jsonData := json.marshal_value (json.VMap [("state", json.VString state)]) in
  if env_url_ok env url then
    let req :=
      {| req_method := "POST"; req_url := url;
         req_header :=
           <["Content-Type" := "application/json"]>
             (<["Authorization" := "Bearer " +:+ HomeAssistant_Token cfg]> ∅);
         req_body := jsonData |} in
    h ← history;
    let resp := env_http env h req in
    emit (EvHTTP req resp);;
    match resp with
    | None => Println "Error updating Home Assistant: %v"
    | Some code =>
        if (code =? 200)%Z || (code =? 201)%Z
        then Println "Successfully updated entity %s to state %s"
        else Println "Failed to update Home Assistant: %d"
    end
  else halt Panicked.

(** The [switch arg] of [handleSwitch] (lines 201-208): the normalized
    state of a raw token, [None] for the [default] branch. *)
Definition normalize (arg : string) : option string :=
  if String.eqb arg "ON" || String.eqb arg "OPEN" then Some "on"
  else if String.eqb arg "OFF" || String.eqb arg "CLOSE" then Some "off"
  else None.

(** The entity lookup of [handleSwitch] (lines 211-216): the curtains
    first, then the lights; the zero value when the node is in neither. *)
Definition resolveEntity (cfg : Config) (nodeID : string) : string :=
  match Devices_Curtains cfg !! nodeID with
  | Some _ => index (Devices_Curtains cfg) nodeID
  | None =>
      match Devices_Lights cfg !! nodeID with
      | Some _ => index (Devices_Lights cfg) nodeID
      | None => EmptyString
      end
  end.

(** The end of [handleSwitch] (lines 222-228): compare with the last state
    pushed for the entity, record the new one, push it. *)
Definition reconcile (entityID state : string) : M unit :=
  lastState ← get (fun p => index (entity p) entityID);
  if String.eqb lastState state then mret tt
  else
    modify (fun p => set_entity (<[entityID := state]> (entity p)) p);;
    updateHomeAssistant ("switch." +:+ entityID) state.

(** [handleSwitch]. *)
Definition handleSwitch (msg : Message) : M unit :=
  let nodeID := NodeID msg in
  match Arg msg with
  | json.VString arg =>
      modify (fun p => set_devices (<[nodeID := arg]> (devices p)) p);;
      match normalize arg with
      | None => mret tt
      | Some state =>
          cfg ← get config;
          let entityID := resolveEntity cfg nodeID in
          if String.eqb entityID EmptyString then mret tt
          else reconcile entityID state
      end
  | _ => mret tt
  end.

(** The table [p.handlers] built by [NewProxy]. *)
Definition handlers : gmap string (Message -> M unit) :=
  <["CCU_HB" := handleHeartbeat]>
    (<["SYNC_INFO" := handleSync]>
       (<["SWITCH" := handleSwitch]>
          (<["LOGIN" := handleLogin]> ∅))).

(** [handleMessage]. *)
Definition handleMessage (msg : Message) : M unit :=
  match handlers !! Opcode msg with
  | Some handler => handler msg
  | None => Println "Unhandled message: %v"
  end.

(** [queryNodeID]; the error of [sendMessage] is dropped. *)
Definition queryNodeID (nodeID : string) : M unit :=
  h ← history;
  sendMessage {| NodeID := nodeID; Opcode := "QUERY"; Arg := json.VString "*";
                 Requester := "HJ_Server"; ReqID := env_now env h;
                 Status := EmptyString |};;
  mret tt.

(** [initState]: one query for each of [1 .. DeviceCount]. *)
Definition initState : M unit :=
  cfg ← get config;
  foldr (fun i rest => queryNodeID (Itoa i);; rest) (mret tt)
        (seqZ 1 (Gateway_DeviceCount cfg)).

(** [reconnect]; [fuel] bounds the number of attempts of the loop.  When
    [connect] fails after the dial succeeded, [connected] is already true
    and the loop ends at its next test. *)
Fixpoint reconnect (fuel : nat) : M unit :=
  c ← get connected;
  if (c : bool) then mret tt
  else match fuel with
       | O => halt OutOfFuel
       | S f =>
           err ← connect;
           match err with
           | Some _ =>
               Println "Reconnection failed: %v";;
               emit (EvSleep 10);;
               reconnect f
           | None =>
               emit (EvGo GoReceive);;
               emit (EvGo GoSendHeartbeat);;
               initState
           end
       end.

(** [handleDisconnect]. *)
Definition handleDisconnect (fuel : nat) : M unit :=
  locked (
    c ← get connected;
    if negb c then mret tt
    else
      modify (set_connected false);;
      cn ← get conn;
      match cn with
      | Some c =>
          modify (set_conn (Some {| conn_id := conn_id c; conn_closed := true |}));;
          emit (EvClose (conn_id c))
      | None => mret tt
      end;;
      Println "Disconnected from gateway, attempting to reconnect...";;
      emit (EvSleep 10);;
      reconnect fuel).

(** [Start]. *)
Definition Start : M (option error) :=
  err ← connect;
  match err with
  | Some e => mret (Some e)
  | None =>
      emit (EvGo GoReceive);;
      emit (EvGo GoSendHeartbeat);;
      initState;;
      mret None
  end.

(** ** The REST handlers of [main] *)

(** The body of a [c.JSON] reply: one key with a boolean or a text. *)
Inductive Reply : Type :=
| ReplyBool (code : Z) (key : string) (b : bool)
| ReplyText (code : Z) (key : string) (s : string).

(** [POST /switch/:id] and [POST /curtain/:id]; [bound] is what
    [c.BindJSON(&data)] leaves in [data.Arg], [None] when it fails.  The two
    handlers differ in the key and the token of the reply. *)
Definition post_command (key token : string) (id : string) (bound : option string)
  : M Reply :=
  match bound with
  | None => mret (ReplyText 400 "error" "Invalid request")
  | Some arg =>
      h ← history;
      sendMessage {| NodeID := id; Opcode := "SWITCH"; Arg := json.VString arg;
                     Requester := "HJ_Server"; ReqID := env_now env h;
                     Status := EmptyString |};;
      modify (fun p => set_devices (<[id := arg]> (devices p)) p);;
      mret (ReplyBool 200 key (String.eqb arg token))
  end.

Definition post_switch := post_command "is_active" "ON".
Definition post_curtain := post_command "is_open" "OPEN".

(** [GET /switch/:id] and [GET /curtain/:id]. *)
Definition get_state (key token : string) (id : string) : M Reply :=
  state ← get (fun p => index (devices p) id);
  mret (ReplyBool 200 key (String.eqb state token)).

Definition get_switch := get_state "is_active" "ON".
Definition get_curtain := get_state "is_open" "OPEN".

End Engine.

(** ** Sample data *)

Module Sample.

Definition cfg : Config :=
  {| Gateway_Host := "192.168.1.20"; Gateway_Port := 5000;
     Gateway_Username := "admin"; Gateway_Password := "admin";
     Gateway_ZKID := "266590"; Gateway_DeviceCount := 2;
     Gateway_HeartbeatInterval := 30;
     HTTPServer_Host := "0.0.0.0"; HTTPServer_Port := 8080;
     HomeAssistant_Host := "ha.local"; HomeAssistant_Port := 8123;
     HomeAssistant_Token := "secret";
     Devices_Curtains := {[ "3" := "bedroom_curtain" ]};
     Devices_Lights := {[ "5" := "kitchen_light" ]};
     Logging_Level := "info"; Logging_File := "proxy.log" |}.

(** A world in which every dial, write and HTTP exchange succeeds. *)
Definition env_ok : Env :=
  {| env_dial := fun _ _ => true;
     env_write := fun _ _ _ => true;
     env_http := fun _ _ => Some 200%Z;
     env_url_ok := fun _ => true;
     env_now := fun _ => 1700000000%Z |}.

(** A world in which the home-automation sink cannot be reached. *)
Definition env_down : Env :=
  {| env_dial := fun _ _ => true;
     env_write := fun _ _ _ => true;
     env_http := fun _ _ => None;
     env_url_ok := fun _ => true;
     env_now := fun _ => 1700000000%Z |}.

(** The proxy right after [NewProxy], and after a successful dial. *)
Definition w0 : World := {| proxy := NewProxy cfg; trace := [] |}.

Definition w_up : World :=
  {| proxy := set_connected true
                (set_conn (Some {| conn_id := 0; conn_closed := false |}) (NewProxy cfg));
     trace := [] |}.

Definition report (node arg : string) : Message :=
  {| NodeID := node; Opcode := "SWITCH"; Arg := json.VString arg;
     Requester := "HJ_Server"; ReqID := 0; Status := EmptyString |}.

Definition heartbeat : Message :=
  {| NodeID := "*"; Opcode := "CCU_HB"; Arg := json.VString "*";
     Requester := "HJ_Server"; ReqID := 0; Status := EmptyString |}.

(** A login as [login] builds it, with a request id and a status added. *)
Definition login_msg : Message :=
  {| NodeID := "*"; Opcode := "LOGIN";
     Arg := json.VMap
              [("device", json.VString EmptyString);
               ("password", json.VString "admin");
               ("seq", json.VString EmptyString);
               ("username", json.VString "admin");
               ("version", json.VString EmptyString);
               ("zkid", json.VString "266590")];
     Requester := "HJ_Server"; ReqID := 1700000000; Status := "success" |}.

(** The world after the light of node 5 was reported on. *)
Definition w_on : World := final (handleSwitch env_ok (report "5" "ON") w0).

End Sample.

(** ** The two loops of the session *)

(** [bufio.Reader.ReadString(delim)] on [input], the bytes that the
    connection still delivers before it fails: the bytes up to and
    including the first [delim], with the bytes after it; [None] when the
    input ends before a [delim] (the reader returns an error then, and
    [receive] drops the bytes it came with). *)
Fixpoint ReadString (input : string) (delim : ascii) : option (string * string) :=
  match input with
  | EmptyString => None
  | String c r =>
      if Ascii.eqb c delim then Some (String c EmptyString, r)
      else match ReadString r delim with
           | Some (data, rest) => Some (String c data, rest)
           | None => None
           end
  end.

(** The data written to the gateway socket in a trace. *)
Definition writes (tr : list Event) : list string :=
  omap (fun e => match e with EvWrite _ data _ => Some data | _ => None end) tr.

(** The goroutines started in a trace. *)
Definition spawned (tr : list Event) : list Goroutine :=
  omap (fun e => match e with EvGo g => Some g | _ => None end) tr.

(** The message of [queryNodeID] for a node and a clock value, and the
    message of [sendHeartbeat]. *)
Definition queryMsg (nodeID : string) (now : Z) : Message :=
  {| NodeID := nodeID; Opcode := "QUERY"; Arg := json.VString "*";
     Requester := "HJ_Server"; ReqID := now; Status := EmptyString |}.

Definition heartbeatMsg : Message :=
  {| NodeID := "*"; Opcode := "CCU_HB"; Arg := json.VString "*";
     Requester := "HJ_Server"; ReqID := 0; Status := EmptyString |}.

(** No string of the message holds the byte [$]. *)
Definition dollar_free_value (v : json.value) : bool :=
  match v with
  | json.VString s => negb (contains_byte "$"%char s)
  | json.VMap m =>
      forallb (fun kv => negb (contains_byte "$"%char (fst kv)) &&
                         match snd kv with
                         | json.VString s => negb (contains_byte "$"%char s)
                         | _ => false
                         end) m
  | _ => false
  end.

Definition dollar_free (msg : Message) : bool :=
  negb (contains_byte "$"%char (NodeID msg)) &&
  negb (contains_byte "$"%char (Opcode msg)) &&
  dollar_free_value (Arg msg) &&
  negb (contains_byte "$"%char (Requester msg)) &&
  negb (contains_byte "$"%char (Status msg)).

(** What the Entity State Map may hold under a configuration: for an
    entity id of the Device Registry (not the empty one), the state [on] or
    [off]. *)
Definition entity_ok (cfg : Config) (e : gmap string string) : Prop :=
  forall k v, e !! k = Some v ->
    (v = "on" \/ v = "off") /\ k <> EmptyString /\
    exists node, Devices_Curtains cfg !! node = Some k \/
                 Devices_Lights cfg !! node = Some k.

(** The message of [login] under a configuration. *)
Definition loginMsg (cfg : Config) : Message :=
  {| NodeID := "*"; Opcode := "LOGIN"; Requester := "HJ_Server";
     Arg := json.VMap
              [("device", json.VString EmptyString);
               ("password", json.VString (Gateway_Password cfg));
               ("seq", json.VString EmptyString);
               ("username", json.VString (Gateway_Username cfg));
               ("version", json.VString EmptyString);
               ("zkid", json.VString (Gateway_ZKID cfg))];
     ReqID := 0; Status := EmptyString |}.

(** The address that [connect] dials. *)
Definition gateway_addr (cfg : Config) : string :=
  Gateway_Host cfg +:+ ":" +:+ Itoa (Gateway_Port cfg).

Section Loops.

Variable env : Env.

(** The loop [for _, msg := range messages] of [receive]. *)
Definition handleMessages (messages : list Message) : M unit :=
  fold_right (fun msg rest => handleMessage env msg;; rest) (mret tt) messages.

(** [receive] on the bytes [input]; [fuel] bounds the turns of the loop
    and [dfuel] the attempts of [reconnect].  The reader is made from
    [p.conn]: reading from a nil connection panics. *)
Fixpoint receive_loop (fuel dfuel : nat) (input : string) : M unit :=
  c ← get connected;
  if (c : bool) then
    match fuel with
    | O => halt OutOfFuel
    | S f =>
        cn ← get conn;
        match cn with
        | None => halt Panicked
        | Some _ =>
            match ReadString input "$"%char with
            | None =>
                Println "Error reading from connection: %v";;
                handleDisconnect env dfuel
            | Some (data, rest) =>
                let buffer := EmptyString +:+ data in
                let messages := parseMessages buffer in
                handleMessages messages;;
                receive_loop f dfuel rest
            end
        end
    end
  else mret tt.

(** One turn of the loop for each [$] of the input, and one for the
    failing read. *)
Definition receive (dfuel : nat) (input : string) : M unit :=
  receive_loop (S (String.length input)) dfuel input.

(** [sendHeartbeat]; [fuel] bounds the turns of the loop. *)
Fixpoint sendHeartbeat (fuel dfuel : nat) : M unit :=
  c ← get connected;
  if (c : bool) then
    match fuel with
    | O => halt OutOfFuel
    | S f =>
        err ← sendMessage env heartbeatMsg;
        match err with
        | Some _ =>
            Println "Error sending heartbeat: %v";;
            handleDisconnect env dfuel
        | None =>
            cfg ← get config;
            emit (EvSleep (Gateway_HeartbeatInterval cfg));;
            sendHeartbeat f dfuel
        end
    end
  else mret tt.

End Loops.

(** A world in which the gateway cannot be reached, and one in which it
    accepts the connection but every write fails. *)
Module Scenario.

Definition env_unreachable : Env :=
  {| env_dial := fun _ _ => false;
     env_write := fun _ _ _ => true;
     env_http := fun _ _ => Some 200%Z;
     env_url_ok := fun _ => true;
     env_now := fun _ => 1700000000%Z |}.

Definition env_mute : Env :=
  {| env_dial := fun _ _ => true;
     env_write := fun _ _ _ => false;
     env_http := fun _ _ => Some 200%Z;
     env_url_ok := fun _ => true;
     env_now := fun _ => 1700000000%Z |}.

End Scenario.

(** * Properties *)


(** ** Byte strings *)

Lemma str_app_nil_l (s : string) : EmptyString +:+ s = s.
Proof. reflexivity. Qed.

Lemma str_app_cons (c : ascii) (s t : string) : String c s +:+ t = String c (s +:+ t).
Proof. reflexivity. Qed.

Lemma str_app_nil_r (s : string) : s +:+ EmptyString = s.
Proof. induction s as [|c s IH]; [done |]. by rewrite str_app_cons, IH. Qed.

Lemma str_app_assoc (s t u : string) : (s +:+ t) +:+ u = s +:+ t +:+ u.
Proof. induction s as [|c s IH]; [done |]. by rewrite !str_app_cons, IH. Qed.

Lemma str_length_app (s t : string) :
  String.length (s +:+ t) = String.length s + String.length t.
Proof. induction s as [|c s IH]; [done |]. rewrite str_app_cons. cbn. by rewrite IH. Qed.

Ltac sapp := rewrite ?str_app_assoc, ?str_app_cons, ?str_app_nil_l.

(** ** Running the monad *)

Ltac run :=
  repeat (unfold mbind, M_bind, mret, M_ret, get, modify, history, emit, halt,
            Println, final in *;
          cbn [proxy trace config conn devices entity mutex connected
               set_conn set_devices set_entity set_mutex set_connected] in *).

Lemma world_eta (w : World) : {| proxy := proxy w; trace := trace w |} = w.
Proof. by destruct w. Qed.

Lemma set_mutex_release (p : Proxy) :
  mutex p = false -> set_mutex false (set_mutex true p) = p.
Proof. destruct p; cbn; intros ->; reflexivity. Qed.

Lemma eqb_false_ne (a b : string) : a <> b -> String.eqb a b = false.
Proof. intros H. by apply String.eqb_neq. Qed.

(** The four tokens of the [switch], and no other, are normalized. *)
Lemma normalize_None (arg : string) :
  normalize arg = None <->
  arg <> "ON" /\ arg <> "OPEN" /\ arg <> "OFF" /\ arg <> "CLOSE".
Proof.
  unfold normalize. split.
  - intros H. repeat split; intros ->; discriminate H.
  - intros (H1 & H2 & H3 & H4).
    by rewrite !eqb_false_ne.
Qed.

Lemma normalize_Some (arg state : string) :
  normalize arg = Some state -> state = "on" \/ state = "off".
Proof.
  unfold normalize. repeat case_match; intros [= <-]; auto.
Qed.

(** ** What [handleSwitch] does with a report *)

(** C1 (as amended): the four tokens are normalized as the table says; a
    SWITCH report whose string argument is none of them is recorded raw in
    the Device State Map for its node, and that is all it does: the Entity
    State Map and the trace are as before. *)
Theorem handleSwitch_unrecognized (env : Env) (msg : Message) (arg : string) (w : World)
    (Harg : Arg msg = json.VString arg)
    (Hon : arg <> "ON") (Hopen : arg <> "OPEN")
    (Hoff : arg <> "OFF") (Hclose : arg <> "CLOSE") :
  (normalize "ON" = Some "on" /\ normalize "OPEN" = Some "on" /\
   normalize "OFF" = Some "off" /\ normalize "CLOSE" = Some "off") /\
  handleSwitch env msg w =
    Done tt {| proxy := set_devices (<[NodeID msg := arg]> (devices (proxy w))) (proxy w);
               trace := trace w |} /\
  entity (proxy (final (handleSwitch env msg w))) = entity (proxy w) /\
  trace (final (handleSwitch env msg w)) = trace w.
Proof.
  assert (Hn : normalize arg = None) by (by apply normalize_None).
  assert (Hrun : handleSwitch env msg w =
    Done tt {| proxy := set_devices (<[NodeID msg := arg]> (devices (proxy w))) (proxy w);
               trace := trace w |}).
  { unfold handleSwitch. rewrite Harg. run. by rewrite Hn. }
  split; [by repeat split |].
  rewrite Hrun. by repeat split.
Qed.

Lemma handleSwitch_unrecognized_witness :
  Arg (Sample.report "5" "FOO") = json.VString "FOO" /\
  ("FOO" <> "ON" /\ "FOO" <> "OPEN" /\ "FOO" <> "OFF" /\ "FOO" <> "CLOSE") /\
  handleSwitch Sample.env_ok (Sample.report "5" "FOO") Sample.w0 =
    Done tt {| proxy := set_devices (<["5" := "FOO"]> (devices (proxy Sample.w0)))
                          (proxy Sample.w0);
               trace := [] |}.
Proof.
  split; [reflexivity |]. split; [by repeat split |].
  apply (handleSwitch_unrecognized Sample.env_ok (Sample.report "5" "FOO") "FOO" Sample.w0);
    [reflexivity | discriminate ..].
Defined.

(** C1 (as stated) fails: the report with the raw value [FOO] is not
    inert, the Device State Map has a new entry for the node. *)
Lemma handleSwitch_FOO_mutates_devices :
  normalize "FOO" = None /\
  devices (proxy Sample.w0) !! "5" = None /\
  devices (proxy (final (handleSwitch Sample.env_ok (Sample.report "5" "FOO") Sample.w0)))
    !! "5" = Some "FOO".
Proof. repeat split. Qed.

(** ** The State Reconciler *)

Lemma index_Some (m : gmap string string) (k v : string) :
  m !! k = Some v -> index m k = v.
Proof. unfold index. by intros ->. Qed.

Lemma http_calls_app (t1 t2 : list Event) :
  http_calls (t1 ++ t2) = http_calls t1 ++ http_calls t2.
Proof. unfold http_calls. apply omap_app. Qed.

(** [updateHomeAssistant] leaves the proxy as it is and sends at most one
    request. *)
Lemma updateHomeAssistant_final (env : Env) (entityID state : string) (w : World) :
  proxy (final (updateHomeAssistant env entityID state w)) = proxy w /\
  exists reqs, length reqs <= 1 /\
    http_calls (trace (final (updateHomeAssistant env entityID state w))) =
    http_calls (trace w) ++ reqs.
Proof.
  unfold updateHomeAssistant. run.
  destruct (env_url_ok env _); cbn.
  - destruct (env_http env _ _) as [code|]; cbn.
    + destruct ((code =? 200)%Z || (code =? 201)%Z); cbn; split; trivial;
        eexists [_]; rewrite !http_calls_app; cbn; rewrite app_nil_r; auto.
    + split; trivial. eexists [_]. rewrite !http_calls_app; cbn.
      rewrite app_nil_r; auto.
  - split; trivial. exists []. rewrite app_nil_r. split; [cbn; lia | done].
Qed.

(** Reconciling a state that the Entity State Map already holds does
    nothing at all. *)
Lemma reconcile_same (env : Env) (E st : string) (w : World) :
  index (entity (proxy w)) E = st -> reconcile env E st w = Done tt w.
Proof.
  intros H. unfold reconcile. run. rewrite H, String.eqb_refl. reflexivity.
Qed.

(** Reconciling a changed state records it, whatever becomes of the
    request. *)
Lemma reconcile_changed (env : Env) (E st : string) (w : World) :
  index (entity (proxy w)) E <> st ->
  reconcile env E st w =
  updateHomeAssistant env ("switch." +:+ E) st
    {| proxy := set_entity (<[E := st]> (entity (proxy w))) (proxy w); trace := trace w |}.
Proof.
  intros H. unfold reconcile. run. by rewrite (eqb_false_ne _ _ H).
Qed.

Lemma reconcile_final (env : Env) (E st : string) (w : World) :
  index (entity (proxy (final (reconcile env E st w)))) E = st /\
  exists reqs, length reqs <= 1 /\
    http_calls (trace (final (reconcile env E st w))) = http_calls (trace w) ++ reqs.
Proof.
  destruct (decide (index (entity (proxy w)) E = st)) as [Heq|Hne].
  - rewrite (reconcile_same _ _ _ _ Heq). cbn. split; [done|].
    exists []. rewrite app_nil_r. split; [cbn; lia | done].
  - rewrite (reconcile_changed _ _ _ _ Hne).
    destruct (updateHomeAssistant_final env ("switch." +:+ E) st
      {| proxy := set_entity (<[E := st]> (entity (proxy w))) (proxy w); trace := trace w |})
      as [Hp Hreq].
    rewrite Hp. cbn. split; [|exact Hreq].
    unfold index. by rewrite lookup_insert_eq.
Qed.

(** C2: reconciling [(E, S)] when the Entity State Map already holds [S]
    for [E] changes nothing (no map write, no event, so no HTTP call); and
    reconciling [(E, S)] twice in a row sends at most one HTTP request. *)
Theorem reconcile_idempotent (env : Env) (E st : string) (w : World) :
  (entity (proxy w) !! E = Some st -> reconcile env E st w = Done tt w) /\
  length (http_calls (trace (final ((reconcile env E st;; reconcile env E st) w))))
    <= length (http_calls (trace w)) + 1.
Proof.
  split.
  - intros H. apply reconcile_same. by apply index_Some.
  - destruct (reconcile_final env E st w) as [Hidx (reqs & Hlen & Hcalls)].
    unfold mbind, M_bind.
    destruct (reconcile env E st w) as [[] w1|h w1] eqn:Hrun; cbn in *.
    + rewrite (reconcile_same env E st w1 Hidx). cbn.
      rewrite Hcalls, length_app. lia.
    + rewrite Hcalls, length_app. lia.
Qed.

Lemma reconcile_idempotent_witness :
  entity (proxy Sample.w_on) !! "kitchen_light" = Some "on" /\
  reconcile Sample.env_ok "kitchen_light" "on" Sample.w_on = Done tt Sample.w_on.
Proof.
  split; [reflexivity |].
  apply (reconcile_idempotent Sample.env_ok "kitchen_light" "on"). reflexivity.
Defined.

(** C7: a failing request is not rolled back and not retried: after
    reconciling a changed [(E, S)] the Entity State Map holds [S] for [E]
    (only that entry was written), whatever the sink answers and also when
    the request cannot be built, and at most one request was sent. *)
Theorem reconcile_no_rollback (env : Env) (E st : string) (w : World)
    (Hchanged : index (entity (proxy w)) E <> st) :
  entity (proxy (final (reconcile env E st w))) = <[E := st]> (entity (proxy w)) /\
  entity (proxy (final (reconcile env E st w))) !! E = Some st /\
  length (http_calls (trace (final (reconcile env E st w))))
    <= length (http_calls (trace w)) + 1.
Proof.
  rewrite (reconcile_changed _ _ _ _ Hchanged).
  destruct (updateHomeAssistant_final env ("switch." +:+ E) st
    {| proxy := set_entity (<[E := st]> (entity (proxy w))) (proxy w); trace := trace w |})
    as [Hp (reqs & Hlen & Hcalls)].
  rewrite Hp, Hcalls. cbn [proxy trace entity set_entity].
  rewrite lookup_insert_eq, length_app.
  repeat split; try done; lia.
Qed.

Lemma reconcile_no_rollback_witness :
  index (entity (proxy Sample.w0)) "kitchen_light" <> "on" /\
  entity (proxy (final (reconcile Sample.env_down "kitchen_light" "on" Sample.w0)))
    !! "kitchen_light" = Some "on".
Proof.
  split; [discriminate |].
  apply (reconcile_no_rollback Sample.env_down "kitchen_light" "on" Sample.w0).
  discriminate.
Defined.

(** A recognized report for a mapped node is handed to the reconciler,
    after the raw value was recorded. *)
Lemma handleSwitch_recognized (env : Env) (msg : Message) (arg st : string) (w : World) :
  Arg msg = json.VString arg ->
  normalize arg = Some st ->
  resolveEntity (config (proxy w)) (NodeID msg) <> EmptyString ->
  handleSwitch env msg w =
  reconcile env (resolveEntity (config (proxy w)) (NodeID msg)) st
    {| proxy := set_devices (<[NodeID msg := arg]> (devices (proxy w))) (proxy w);
       trace := trace w |}.
Proof.
  intros Harg Hn HE. unfold handleSwitch. rewrite Harg. run. rewrite Hn. run.
  by rewrite (eqb_false_ne _ _ HE).
Qed.

(** A report that is not a string, not a token, or for a node without an
    entity, writes no entity state and sends nothing. *)
Lemma handleSwitch_dropped (env : Env) (msg : Message) (w : World) :
  resolveEntity (config (proxy w)) (NodeID msg) = EmptyString ->
  entity (proxy (final (handleSwitch env msg w))) = entity (proxy w) /\
  trace (final (handleSwitch env msg w)) = trace w.
Proof.
  intros HE. unfold handleSwitch.
  destruct (Arg msg); run; try done.
  destruct (normalize s); run; try done.
  by rewrite HE.
Qed.

(** C4 (as amended): the request that pushes a changed state for the entity
    id [E] of the Device Registry is a POST to
    [http://<host>:<port>/api/states/switch.<E>] (the entity id with the
    prefix [switch.]), with the headers [Authorization: Bearer <token>] and
    [Content-Type: application/json] and the body [{"state":"<on|off>"}];
    it is the only request of the report. *)
Theorem handleSwitch_request (env : Env) (msg : Message) (arg st E : string) (w : World)
    (Harg : Arg msg = json.VString arg)
    (Hnorm : normalize arg = Some st)
    (HE : resolveEntity (config (proxy w)) (NodeID msg) = E)
    (Hmapped : E <> EmptyString)
    (Hchanged : index (entity (proxy w)) E <> st)
    (Hurl : env_url_ok env
              ("http://" +:+ HomeAssistant_Host (config (proxy w)) +:+ ":" +:+
               Itoa (HomeAssistant_Port (config (proxy w))) +:+
               "/api/states/switch." +:+ E) = true) :
  http_calls (trace (final (handleSwitch env msg w))) =
  http_calls (trace w) ++
  [ {| req_method := "POST";
       req_url := "http://" +:+ HomeAssistant_Host (config (proxy w)) +:+ ":" +:+
                  Itoa (HomeAssistant_Port (config (proxy w))) +:+
                  "/api/states/switch." +:+ E;
       req_header :=
         <["Content-Type" := "application/json"]>
           (<["Authorization" := "Bearer " +:+ HomeAssistant_Token (config (proxy w))]> ∅);
       req_body := "{" +:+ json.quoted "state" +:+ ":" +:+ json.quoted st +:+ "}" |} ].
Proof.
  subst E.
  rewrite (handleSwitch_recognized env msg arg st w Harg Hnorm Hmapped).
  rewrite reconcile_changed by exact Hchanged.
  unfold updateHomeAssistant. run. cbn [config set_entity set_devices].
  change ("/api/states/" +:+ "switch." +:+ ?e) with ("/api/states/switch." +:+ e).
  rewrite Hurl.
  assert (Hbody : json.marshal_value (json.VMap [("state", json.VString st)]) =
                  "{" +:+ json.quoted "state" +:+ ":" +:+ json.quoted st +:+ "}").
  { destruct (normalize_Some _ _ Hnorm) as [-> | ->]; reflexivity. }
  rewrite Hbody.
  destruct (env_http env _ _) as [code|]; run.
  - destruct ((code =? 200)%Z || (code =? 201)%Z); run;
      rewrite !http_calls_app; cbn; by rewrite app_nil_r.
  - rewrite !http_calls_app; cbn; by rewrite app_nil_r.
Qed.

Lemma handleSwitch_request_witness :
  (Arg (Sample.report "5" "ON") = json.VString "ON" /\
   normalize "ON" = Some "on" /\
   resolveEntity Sample.cfg "5" = "kitchen_light" /\
   "kitchen_light" <> EmptyString /\
   index (entity (proxy Sample.w0)) "kitchen_light" <> "on") /\
  http_calls (trace (final (handleSwitch Sample.env_ok (Sample.report "5" "ON") Sample.w0))) =
  [ {| req_method := "POST";
       req_url := "http://ha.local:8123/api/states/switch.kitchen_light";
       req_header :=
         <["Content-Type" := "application/json"]>
           (<["Authorization" := "Bearer secret"]> ∅);
       req_body := "{" +:+ json.quoted "state" +:+ ":" +:+ json.quoted "on" +:+ "}" |} ].
Proof.
  split; [by repeat split |].
  apply (handleSwitch_request Sample.env_ok (Sample.report "5" "ON") "ON" "on"
           "kitchen_light" Sample.w0); [reflexivity .. | discriminate | discriminate | reflexivity].
Defined.

(** C4 (as stated) fails: the path of the request is not
    [/api/states/<E>] for the entity id [E] of the registry. *)
Lemma handleSwitch_request_path_prefixed :
  resolveEntity Sample.cfg "5" = "kitchen_light" /\
  map req_url
    (http_calls (trace (final (handleSwitch Sample.env_ok (Sample.report "5" "ON") Sample.w0)))) =
  ["http://ha.local:8123/api/states/switch.kitchen_light"] /\
  "http://ha.local:8123/api/states/switch.kitchen_light" <>
  "http://ha.local:8123/api/states/kitchen_light".
Proof. repeat split. discriminate. Qed.

(** C6: a node of the curtain partition resolves to the curtain's entity
    id, whatever the light partition holds, and a recognized report for it
    is reconciled under that id; a report for a node in neither partition
    writes no entity state and sends no request. *)
Theorem handleSwitch_registry (env : Env) (msg : Message) (w : World) :
  (forall e, Devices_Curtains (config (proxy w)) !! NodeID msg = Some e ->
     resolveEntity (config (proxy w)) (NodeID msg) = e /\
     forall arg st, Arg msg = json.VString arg -> normalize arg = Some st ->
       e <> EmptyString ->
       handleSwitch env msg w =
       reconcile env e st
         {| proxy := set_devices (<[NodeID msg := arg]> (devices (proxy w))) (proxy w);
            trace := trace w |}) /\
  (Devices_Curtains (config (proxy w)) !! NodeID msg = None ->
   Devices_Lights (config (proxy w)) !! NodeID msg = None ->
     entity (proxy (final (handleSwitch env msg w))) = entity (proxy w) /\
     http_calls (trace (final (handleSwitch env msg w))) = http_calls (trace w)).
Proof.
  split.
  - intros e He.
    assert (Hres : resolveEntity (config (proxy w)) (NodeID msg) = e).
    { unfold resolveEntity. rewrite He. by apply index_Some. }
    split; [exact Hres |].
    intros arg st Harg Hn Hne.
    rewrite (handleSwitch_recognized env msg arg st w Harg Hn); rewrite Hres; done.
  - intros Hc Hl.
    destruct (handleSwitch_dropped env msg w) as [H1 H2].
    { unfold resolveEntity. by rewrite Hc, Hl. }
    by rewrite H1, H2.
Qed.

Lemma handleSwitch_registry_witness :
  Devices_Curtains Sample.cfg !! "3" = Some "bedroom_curtain" /\
  Devices_Lights Sample.cfg !! "3" = None /\
  resolveEntity Sample.cfg "3" = "bedroom_curtain".
Proof.
  split; [reflexivity |]. split; [reflexivity |].
  apply (proj1 (handleSwitch_registry Sample.env_ok (Sample.report "3" "OPEN") Sample.w0)
           "bedroom_curtain").
  reflexivity.
Defined.

(** ** The Message Router *)

Lemma handlers_None (env : Env) (op : string) :
  op <> "CCU_HB" -> op <> "SYNC_INFO" -> op <> "SWITCH" -> op <> "LOGIN" ->
  handlers env !! op = None.
Proof.
  intros H1 H2 H3 H4. unfold handlers.
  rewrite !lookup_insert_ne by done. apply lookup_empty.
Qed.

(** C8: a message whose opcode is none of [CCU_HB], [SYNC_INFO], [SWITCH],
    [LOGIN] is logged and dropped: the proxy (both maps with it) is as
    before and the only event is the log line. *)
Theorem handleMessage_unknown_opcode (env : Env) (msg : Message) (w : World)
    (Hhb : Opcode msg <> "CCU_HB") (Hsync : Opcode msg <> "SYNC_INFO")
    (Hswitch : Opcode msg <> "SWITCH") (Hlogin : Opcode msg <> "LOGIN") :
  handleMessage env msg w =
    Done tt {| proxy := proxy w;
               trace := trace w ++ [EvPrintln "Unhandled message: %v"] |} /\
  devices (proxy (final (handleMessage env msg w))) = devices (proxy w) /\
  entity (proxy (final (handleMessage env msg w))) = entity (proxy w) /\
  filter (fun e => is_network e = true) (trace (final (handleMessage env msg w))) =
  filter (fun e => is_network e = true) (trace w).
Proof.
  assert (Hrun : handleMessage env msg w =
    Done tt {| proxy := proxy w;
               trace := trace w ++ [EvPrintln "Unhandled message: %v"] |}).
  { unfold handleMessage. by rewrite handlers_None. }
  rewrite Hrun. cbn [final proxy trace].
  repeat split. rewrite filter_app. cbn. by rewrite app_nil_r.
Qed.

Lemma handleMessage_unknown_opcode_witness :
  ("QUERY" <> "CCU_HB" /\ "QUERY" <> "SYNC_INFO" /\
   "QUERY" <> "SWITCH" /\ "QUERY" <> "LOGIN") /\
  handleMessage Sample.env_ok
    {| NodeID := "5"; Opcode := "QUERY"; Arg := json.VString "ON";
       Requester := "HJ_Server"; ReqID := 7; Status := EmptyString |} Sample.w0 =
  Done tt {| proxy := proxy Sample.w0; trace := [EvPrintln "Unhandled message: %v"] |}.
Proof.
  split; [by repeat split |].
  apply (handleMessage_unknown_opcode Sample.env_ok
           {| NodeID := "5"; Opcode := "QUERY"; Arg := json.VString "ON";
              Requester := "HJ_Server"; ReqID := 7; Status := EmptyString |} Sample.w0);
    discriminate.
Defined.

(** ** The session *)

(** C10: [handleDisconnect] on a session whose [connected] flag is already
    false does nothing: the call returns (when the mutex is free) in the
    world it started in, so the flag is still false, no socket is closed,
    both maps are as before and no reconnect is attempted. *)
Theorem handleDisconnect_idempotent (env : Env) (fuel : nat) (w : World)
    (Hdown : connected (proxy w) = false) :
  final (handleDisconnect env fuel w) = w /\
  (mutex (proxy w) = false -> handleDisconnect env fuel w = Done tt w).
Proof.
  unfold handleDisconnect, locked.
  destruct (mutex (proxy w)) eqn:Hm.
  - split; [reflexivity | discriminate].
  - unfold mbind, M_bind, get, mret, M_ret. cbn [proxy trace final].
    change (connected (set_mutex true (proxy w))) with (connected (proxy w)).
    rewrite Hdown. cbn [negb proxy trace].
    rewrite set_mutex_release by exact Hm. rewrite world_eta. by split.
Qed.

Lemma handleDisconnect_idempotent_witness :
  connected (proxy Sample.w0) = false /\
  handleDisconnect Sample.env_ok 3 Sample.w0 = Done tt Sample.w0.
Proof.
  split; [reflexivity |].
  apply (handleDisconnect_idempotent Sample.env_ok 3 Sample.w0); reflexivity.
Defined.

(** ** The Command Gateway *)

(** [sendMessage] changes no field of the proxy when it returns. *)
Lemma sendMessage_Done (env : Env) (msg : Message) (w w' : World) (r : option error) :
  sendMessage env msg w = Done r w' -> proxy w' = proxy w.
Proof.
  unfold sendMessage, locked.
  destruct (mutex (proxy w)) eqn:Hm; [discriminate |].
  unfold mbind, M_bind, get, history, emit, halt, mret, M_ret. cbn [proxy trace].
  change (conn (set_mutex true (proxy w))) with (conn (proxy w)).
  destruct (conn (proxy w)) as [c|]; [| discriminate].
  cbn [proxy trace]. intros [= _ <-]. cbn [proxy].
  by apply set_mutex_release.
Qed.

(** With a connection and a free mutex [sendMessage] returns. *)
Lemma sendMessage_returns (env : Env) (msg : Message) (w : World) :
  conn (proxy w) <> None -> mutex (proxy w) = false ->
  exists r w', sendMessage env msg w = Done r w'.
Proof.
  intros Hc Hm. unfold sendMessage, locked. rewrite Hm.
  unfold mbind, M_bind, get, history, emit, halt, mret, M_ret. cbn [proxy trace].
  change (conn (set_mutex true (proxy w))) with (conn (proxy w)).
  destruct (conn (proxy w)) as [c|]; [| done].
  cbn [proxy trace]. eauto.
Qed.

(** C3: once [SendCommand(N, A)] (the POST handler) has returned, the Device
    State Map holds [A] for [N] and [ReadState(N)] (the GET handler) reads
    [A], with no report from the gateway in between; and the POST handler
    does return when the session has a connection and the mutex is free,
    whether or not the write succeeds. *)
Theorem post_command_optimistic (env : Env) (key token node arg : string) (w : World) :
  (forall r w', post_command env key token node (Some arg) w = Done r w' ->
     devices (proxy w') !! node = Some arg /\
     index (devices (proxy w')) node = arg /\
     get_state key token node w' = Done (ReplyBool 200 key (String.eqb arg token)) w') /\
  (conn (proxy w) <> None -> mutex (proxy w) = false ->
   exists w', post_command env key token node (Some arg) w =
              Done (ReplyBool 200 key (String.eqb arg token)) w').
Proof.
  split.
  - intros r w'. unfold post_command.
    unfold mbind at 1, M_bind at 1, history at 1.
    unfold mbind at 1, M_bind at 1.
    destruct (sendMessage env _ w) as [e w1|h w1] eqn:Hsend; [| discriminate].
    run. intros [= _ <-]. cbn [proxy devices set_devices].
    assert (Hl : <[node:=arg]> (devices (proxy w1)) !! node = Some arg) by apply lookup_insert_eq.
    split; [exact Hl |]. split; [by apply index_Some |].
    unfold get_state. run. by rewrite (index_Some _ _ _ Hl).
  - intros Hc Hm. unfold post_command.
    unfold mbind at 1, M_bind at 1, history at 1.
    unfold mbind at 1, M_bind at 1.
    destruct (sendMessage_returns env
      {| NodeID := node; Opcode := "SWITCH"; Arg := json.VString arg;
         Requester := "HJ_Server"; ReqID := env_now env (trace w);
         Status := EmptyString |} w Hc Hm) as (r & w1 & ->).
    run. eauto.
Qed.

Lemma post_command_optimistic_witness :
  (conn (proxy Sample.w_up) <> None /\ mutex (proxy Sample.w_up) = false) /\
  exists w', post_switch Sample.env_ok "5" (Some "ON") Sample.w_up =
             Done (ReplyBool 200 "is_active" true) w' /\
             index (devices (proxy w')) "5" = "ON".
Proof.
  split; [by split |].
  destruct (proj2 (post_command_optimistic Sample.env_ok "is_active" "ON" "5" "ON"
                     Sample.w_up)) as [w' Hw']; [discriminate | reflexivity |].
  exists w'. split; [exact Hw' |].
  apply (proj1 (post_command_optimistic Sample.env_ok "is_active" "ON" "5" "ON"
                  Sample.w_up) _ _ Hw').
Defined.

(** ** The Frame Codec: decoding *)

Lemma Split_cons (body rest : string) (sep : ascii) :
  contains_byte sep body = false ->
  Split (body +:+ String sep rest) sep = body :: Split rest sep.
Proof.
  induction body as [|c body IH]; sapp; cbn [Split contains_byte]; intros H.
  - by rewrite Ascii.eqb_refl.
  - apply orb_false_iff in H as [Hc Hb]. rewrite Hc, (IH Hb). reflexivity.
Qed.

Lemma Split_nonempty (s : string) (sep : ascii) : Split s sep <> [].
Proof.
  induction s as [|c s IH]; cbn; [done |].
  destruct (Ascii.eqb c sep); [done |]. by destruct (Split s sep).
Qed.

(** The loop body of [parseMessages] is [accept]. *)
Lemma parseMessages_step (part : string) :
  (if HasPrefix part "!"
   then json_Unmarshal (TrimPrefix part "!")
   else None) = accept part.
Proof.
  destruct part as [|c body]; [reflexivity |].
  unfold TrimPrefix, HasPrefix, accept. cbn [String.prefix].
  destruct (Ascii.ascii_dec "!" c) as [<- | Hne].
  - by destruct body.
  - destruct (Ascii.eqb c "!") eqn:E; [| done].
    apply Ascii.eqb_eq in E. congruence.
Qed.

Lemma parseMessages_omap (buffer : string) :
  parseMessages buffer = omap accept (Split buffer "$"%char).
Proof.
  unfold parseMessages.
  enough (H : forall parts acc,
    fold_left (fun (messages : list Message) part =>
       if HasPrefix part "!" then
         match json_Unmarshal (TrimPrefix part "!") with
         | Some msg => messages ++ [msg]
         | None => messages
         end
       else messages) parts acc = acc ++ omap accept parts) by apply (H _ []).
  induction parts as [|part parts IH]; intros acc; cbn.
  - by rewrite app_nil_r.
  - rewrite IH, <- parseMessages_step.
    destruct (HasPrefix part "!"); [| done].
    destruct (json_Unmarshal _); [| done].
    by rewrite <- app_assoc.
Qed.

Lemma Split_stream (bodies : list string) :
  Forall (fun body => contains_byte "$"%char body = false) bodies ->
  Split (stream bodies) "$"%char = map (String "!"%char) bodies ++ [EmptyString].
Proof.
  induction 1 as [|body bodies Hb _ IH]; [reflexivity |].
  change (stream (body :: bodies)) with (frame body +:+ stream bodies).
  cbn [map]. unfold frame. sapp. cbn [Split]. change (Ascii.eqb "!" "$") with false. cbn iota.
  by rewrite (Split_cons body (stream bodies) "$"%char Hb), IH.
Qed.

(** A buffer made of frames gives the messages of their bodies. *)
Lemma parseMessages_stream (bodies : list string) (msgs : list Message) :
  Forall2 (fun body msg => contains_byte "$"%char body = false /\
                           json_Unmarshal body = Some msg) bodies msgs ->
  parseMessages (stream bodies) = msgs.
Proof.
  intros HF. rewrite parseMessages_omap, Split_stream.
  - rewrite omap_app. cbn. rewrite app_nil_r.
    induction HF as [|body msg bodies msgs [_ Hun] _ IH]; [done |].
    cbn. by rewrite Hun, IH.
  - induction HF as [|body msg bodies msgs [Hb _] _ IH]; by constructor.
Qed.

Lemma parseMessages_frame (body : string) (msg : Message) :
  contains_byte "$"%char body = false -> json_Unmarshal body = Some msg ->
  parseMessages (frame body) = [msg].
Proof.
  intros Hb Hun. rewrite <- (str_app_nil_r (frame body)).
  apply (parseMessages_stream [body] [msg]). by repeat constructor.
Qed.

(** C9: [parseMessages] never fails; its result is, in order, the messages
    of the fragments between the [$] bytes that start with [!] and whose
    remainder [json.Unmarshal] accepts, every other fragment being dropped;
    so a message is in the result exactly when it is the message of such a
    fragment, and a buffer made of frames [!body$] (no [$] inside a body)
    gives the messages of all the bodies, in order. *)
Theorem parseMessages_accepts (buffer : string) :
  parseMessages buffer = omap accept (Split buffer "$"%char) /\
  (forall msg, msg ∈ parseMessages buffer <->
     exists body, String "!"%char body ∈ Split buffer "$"%char /\
                  json_Unmarshal body = Some msg) /\
  (forall bodies msgs,
     Forall2 (fun body msg => contains_byte "$"%char body = false /\
                              json_Unmarshal body = Some msg) bodies msgs ->
     buffer = stream bodies -> parseMessages buffer = msgs).
Proof.
  split; [apply parseMessages_omap |]. split.
  - intros msg. rewrite parseMessages_omap, list_elem_of_omap. split.
    + intros (part & Hin & Hacc). destruct part as [|c body]; [done |].
      cbn in Hacc. destruct (Ascii.eqb c "!") eqn:E; [| done].
      apply Ascii.eqb_eq in E. subst c. eauto.
    + intros (body & Hin & Hun). exists (String "!"%char body). by split.
  - intros bodies msgs HF ->. by apply parseMessages_stream.
Qed.

(** ** UTF-8: encoding a decoded rune *)

Module utf8_facts.
Import utf8.

#[local] Open Scope N_scope.

Ltac ndm := zify; Z.to_euclidean_division_equations; lia.

Lemma lor_shiftl_add (a b k : N) : b < 2 ^ k -> N.lor (N.shiftl a k) b = a * 2 ^ k + b.
Proof.
  intros Hb. rewrite N.shiftl_mul_pow2.
  rewrite <- N.lxor_lor, <- N.add_nocarry_lxor; trivial.
  all: apply N.bits_inj; intros n; rewrite N.land_spec, N.bits_0;
    destruct (N.lt_ge_cases n k) as [Hlt|Hge].
  all: try (rewrite N.mul_pow2_bits_low by trivial; reflexivity).
  all: destruct (N.eq_dec b 0) as [->|Hnz];
    [rewrite N.bits_0, Bool.andb_false_r; reflexivity|].
  all: rewrite (N.bits_above_log2 b n), Bool.andb_false_r; trivial.
  all: apply N.log2_lt_pow2; [lia|]; eapply N.lt_le_trans; [exact Hb|];
    apply N.pow_le_mono_r; lia.
Qed.

(** [lor] is addition when the left operand is a multiple of [2^k] and the
    right one is below [2^k]. *)
Lemma lor_add (k a b : N) : a mod 2 ^ k = 0 -> b < 2 ^ k -> N.lor a b = a + b.
Proof.
  intros Ha Hb.
  assert (Hk : 2 ^ k <> 0) by (apply N.pow_nonzero; lia).
  assert (E : a = N.shiftl (a / 2 ^ k) k).
  { rewrite N.shiftl_mul_pow2. pose proof (N.div_mod a (2 ^ k) Hk). lia. }
  rewrite E at 1. rewrite (lor_shiftl_add _ _ _ Hb).
  pose proof (N.div_mod a (2 ^ k) Hk). lia.
Qed.

Lemma land_ones_mod (x k : N) : N.land x (N.ones k) = x mod 2 ^ k.
Proof. apply N.land_ones. Qed.

Lemma shiftr_div (x k : N) : N.shiftr x k = x / 2 ^ k.
Proof. apply N.shiftr_div_pow2. Qed.

Lemma shiftl_mul (x k : N) : N.shiftl x k = x * 2 ^ k.
Proof. apply N.shiftl_mul_pow2. Qed.

(** The bit patterns of [DecodeRune] and [EncodeRune] as arithmetic. *)
Lemma dec2_arith (s0 s1 : N) :
  N.lor (N.shiftl (N.land s0 0x1F) 6) (N.land s1 0x3F) = (s0 mod 32) * 64 + s1 mod 64.
Proof.
  change 0x1F with (N.ones 5). change 0x3F with (N.ones 6).
  rewrite !land_ones_mod, lor_shiftl_add; [reflexivity |].
  apply N.mod_lt. discriminate.
Qed.

Lemma dec3_arith (s0 s1 s2 : N) :
  N.lor (N.lor (N.shiftl (N.land s0 0x0F) 12) (N.shiftl (N.land s1 0x3F) 6))
        (N.land s2 0x3F)
  = (s0 mod 16) * 4096 + (s1 mod 64) * 64 + s2 mod 64.
Proof.
  change 0x0F with (N.ones 4). change 0x3F with (N.ones 6).
  rewrite !land_ones_mod, !shiftl_mul.
  change (2 ^ 12) with 4096. change (2 ^ 6) with 64. change (2 ^ 4) with 16.
  rewrite (lor_add 12 (s0 mod 16 * 4096) (s1 mod 64 * 64)).
  - apply (lor_add 6); change (2 ^ 6) with 64.
    + replace (s0 mod 16 * 4096 + s1 mod 64 * 64)
        with ((s0 mod 16 * 64 + s1 mod 64) * 64) by lia.
      apply N.Div0.mod_mul.
    + apply N.mod_lt. discriminate.
  - change (2 ^ 12) with 4096. apply N.Div0.mod_mul.
  - change (2 ^ 12) with 4096. ndm.
Qed.

Lemma dec4_arith (s0 s1 s2 s3 : N) :
  N.lor (N.lor (N.lor (N.shiftl (N.land s0 0x07) 18) (N.shiftl (N.land s1 0x3F) 12))
               (N.shiftl (N.land s2 0x3F) 6))
        (N.land s3 0x3F)
  = (s0 mod 8) * 262144 + (s1 mod 64) * 4096 + (s2 mod 64) * 64 + s3 mod 64.
Proof.
  change 0x07 with (N.ones 3). change 0x3F with (N.ones 6).
  rewrite !land_ones_mod, !shiftl_mul.
  change (2 ^ 18) with 262144. change (2 ^ 12) with 4096.
  change (2 ^ 6) with 64. change (2 ^ 3) with 8.
  rewrite (lor_add 18 (s0 mod 8 * 262144) (s1 mod 64 * 4096)).
  - rewrite (lor_add 12 (s0 mod 8 * 262144 + s1 mod 64 * 4096) (s2 mod 64 * 64)).
    + apply (lor_add 6); change (2 ^ 6) with 64.
      * replace (s0 mod 8 * 262144 + s1 mod 64 * 4096 + s2 mod 64 * 64)
          with ((s0 mod 8 * 4096 + s1 mod 64 * 64 + s2 mod 64) * 64) by lia.
        apply N.Div0.mod_mul.
      * apply N.mod_lt. discriminate.
    + change (2 ^ 12) with 4096.
      replace (s0 mod 8 * 262144 + s1 mod 64 * 4096)
        with ((s0 mod 8 * 64 + s1 mod 64) * 4096) by lia.
      apply N.Div0.mod_mul.
    + change (2 ^ 12) with 4096. ndm.
  - change (2 ^ 18) with 262144. apply N.Div0.mod_mul.
  - change (2 ^ 18) with 262144. ndm.
Qed.

Lemma low6_arith (r : N) : low6 r = ascii_of_N (128 + r mod 64).
Proof.
  unfold low6. change 0x3F with (N.ones 6). rewrite land_ones_mod.
  rewrite (lor_add 6); [reflexivity | reflexivity |]. apply N.mod_lt. discriminate.
Qed.

Lemma lead_arith (k base r n : N) :
  base mod 2 ^ k = 0 -> r / 2 ^ n < 2 ^ k ->
  N.lor base (N.shiftr r n) = base + r / 2 ^ n.
Proof. intros Hb Hr. rewrite shiftr_div. by apply (lor_add k). Qed.

Lemma ascii_of_byte (c : ascii) (n : N) : n = byte c -> ascii_of_N n = c.
Proof. intros ->. apply ascii_N_embedding. Qed.

Lemma byte_lt (c : ascii) : byte c < 256.
Proof. apply N_ascii_bounded. Qed.

Ltac bools :=
  repeat match goal with
  | H : (_ && _)%bool = true |- _ => apply andb_true_iff in H as [? ?]
  | H : (_ || _)%bool = false |- _ => apply orb_false_iff in H as [? ?]
  | H : negb _ = false |- _ => apply negb_false_iff in H
  | H : negb _ = true |- _ => apply negb_true_iff in H
  | H : (_ <? _) = true |- _ => apply N.ltb_lt in H
  | H : (_ <? _) = false |- _ => apply N.ltb_ge in H
  | H : (_ <=? _) = true |- _ => apply N.leb_le in H
  | H : (_ <=? _) = false |- _ => apply N.leb_gt in H
  | H : (_ =? _) = true |- _ => apply N.eqb_eq in H
  | H : (_ =? _) = false |- _ => apply N.eqb_neq in H
  | H : (_ <? _)%nat = true |- _ => apply Nat.ltb_lt in H
  | H : (_ <? _)%nat = false |- _ => apply Nat.ltb_ge in H
  | H : (_ <=? _)%nat = true |- _ => apply Nat.leb_le in H
  | H : (_ <=? _)%nat = false |- _ => apply Nat.leb_gt in H
  | H : (_ =? _)%nat = true |- _ => apply Nat.eqb_eq in H
  | H : (_ =? _)%nat = false |- _ => apply Nat.eqb_neq in H
  end.

(** The leading bytes of [first], by length. *)
Lemma first_inv (s0 : N) (sz : nat) (lo hi : N) :
  first s0 = Some (sz, lo, hi) ->
  0x80 <= lo /\ hi <= 0xBF /\
  ((sz = 2%nat /\ 0xC2 <= s0 < 0xE0 /\ lo = 0x80 /\ hi = 0xBF) \/
   (sz = 3%nat /\ 0xE0 <= s0 < 0xF0 /\
    (s0 = 0xE0 -> lo = 0xA0) /\ (s0 <> 0xE0 -> lo = 0x80) /\
    (s0 = 0xED -> hi = 0x9F) /\ (s0 <> 0xED -> hi = 0xBF)) \/
   (sz = 4%nat /\ 0xF0 <= s0 <= 0xF4 /\
    (s0 = 0xF0 -> lo = 0x90) /\ (s0 <> 0xF0 -> lo = 0x80) /\
    (s0 = 0xF4 -> hi = 0x8F) /\ (s0 <> 0xF4 -> hi = 0xBF))).
Proof.
  unfold first.
  repeat match goal with
  | |- context [if ?b then _ else _] => destruct b eqn:?
  end; intros [= <- <- <-] || discriminate; bools;
  (split; [lia |]; split; [lia |]).
  - left. lia.
  - right; left. lia.
  - right; left. lia.
  - right; left. lia.
  - right; left. lia.
  - right; right. lia.
  - right; right. lia.
  - right; right. lia.
Qed.

Ltac enc_branch :=
  match goal with
  | |- context [if ?b then _ else _] =>
      let E := fresh "E" in destruct b eqn:E;
      try (apply orb_true_iff in E as [E|E]); bools; try (exfalso; ndm)
  end.

Ltac enc_byte k :=
  first [ rewrite (lead_arith k) by (reflexivity || (change (2 ^ k) with (N.pow 2 k); cbn; ndm))
        | rewrite low6_arith ];
  apply ascii_of_byte; cbn; ndm.

(** Encoding the rune of a valid multi-byte sequence gives the sequence
    back. *)
Lemma EncodeRune_DecodeRune (s : string) (rn : N) (size : nat) :
  DecodeRune s = (rn, size) -> (2 <= size)%nat -> EncodeRune rn = slice_to size s.
Proof.
  destruct s as [|c0 r0]; unfold DecodeRune; [intros [= <- <-]; lia |].
  pose proof (byte_lt c0) as B0.
  destruct (byte c0 <? 0x80) eqn:E0; [intros [= <- <-]; lia |].
  destruct (first (byte c0)) as [[[sz lo] hi]|] eqn:Hf; [| intros [= <- <-]; lia].
  apply first_inv in Hf as (Hlo & Hhi & Hcases).
  destruct (_ <? sz)%nat eqn:El; [intros [= <- <-]; lia |].
  destruct r0 as [|c1 r1]; [intros [= <- <-]; lia |].
  pose proof (byte_lt c1) as B1.
  destruct ((byte c1 <? lo) || (hi <? byte c1))%bool eqn:E1; [intros [= <- <-]; lia |].
  bools.
  destruct (sz <=? 2)%nat eqn:E2; bools.
  { intros [= <- <-] _. rewrite dec2_arith.
    destruct Hcases as [HC|[HC|HC]]; [| exfalso; lia ..].
    unfold EncodeRune. do 2 enc_branch.
    cbn [slice_to]. f_equal; [| f_equal].
    - rewrite (lead_arith 5); [| reflexivity | cbn; ndm]. apply ascii_of_byte. cbn. ndm.
    - rewrite low6_arith. apply ascii_of_byte. ndm. }
  destruct r1 as [|c2 r2]; [intros [= <- <-]; lia |].
  pose proof (byte_lt c2) as B2.
  destruct (negb (cont (byte c2))) eqn:Ec2; [intros [= <- <-]; lia |].
  unfold cont in Ec2. bools.
  destruct (sz <=? 3)%nat eqn:E3; bools.
  { intros [= <- <-] _. rewrite dec3_arith.
    destruct Hcases as [HC|[HC|HC]]; [exfalso; lia | | exfalso; lia].
    unfold EncodeRune. unfold MaxRune. do 4 enc_branch.
    cbn [slice_to]. f_equal; [| f_equal; [| f_equal]].
    - rewrite (lead_arith 4); [| reflexivity | cbn; ndm]. apply ascii_of_byte. cbn. ndm.
    - rewrite low6_arith, shiftr_div. apply ascii_of_byte. cbn. ndm.
    - rewrite low6_arith. apply ascii_of_byte. ndm. }
  destruct r2 as [|c3 r3]; [intros [= <- <-]; lia |].
  pose proof (byte_lt c3) as B3.
  destruct (negb (cont (byte c3))) eqn:Ec3; [intros [= <- <-]; lia |].
  unfold cont in Ec3. bools.
  intros [= <- <-] _. rewrite dec4_arith.
  destruct Hcases as [HC|[HC|HC]]; [exfalso; lia | exfalso; lia |].
  unfold EncodeRune. unfold MaxRune. do 4 enc_branch.
  cbn [slice_to]. f_equal; [| f_equal; [| f_equal; [| f_equal]]].
  - rewrite (lead_arith 3); [| reflexivity | cbn; ndm]. apply ascii_of_byte. cbn. ndm.
  - rewrite low6_arith, shiftr_div. apply ascii_of_byte. cbn. ndm.
  - rewrite low6_arith, shiftr_div. apply ascii_of_byte. cbn. ndm.
  - rewrite low6_arith. apply ascii_of_byte. ndm.
Qed.

(** A valid multi-byte rune is decoded from its own bytes alone. *)
Lemma DecodeRune_prefix (s t : string) (rn : N) (size : nat) :
  DecodeRune s = (rn, size) -> (2 <= size)%nat ->
  DecodeRune (slice_to size s +:+ t) = (rn, size) /\
  slice_from size (slice_to size s +:+ t) = t /\
  slice_to size s +:+ slice_from size s = s /\
  (String.length (slice_from size s) + size = String.length s)%nat /\
  exists c0 r0, s = String c0 r0 /\ 0x80 <= byte c0.
Proof.
  destruct s as [|c0 r0]; unfold DecodeRune at 1; [intros [= <- <-]; lia |].
  destruct (byte c0 <? 0x80) eqn:E0; [intros [= <- <-]; lia |].
  destruct (first (byte c0)) as [[[sz lo] hi]|] eqn:Hf; [| intros [= <- <-]; lia].
  destruct (_ <? sz)%nat eqn:El; [intros [= <- <-]; lia |].
  destruct r0 as [|c1 r1]; [intros [= <- <-]; lia |].
  destruct ((byte c1 <? lo) || (hi <? byte c1))%bool eqn:E1; [intros [= <- <-]; lia |].
  assert (Hlast : exists c r, String c0 (String c1 r1) = String c r /\ 0x80 <= byte c).
  { exists c0, (String c1 r1). split; [done |]. by apply N.ltb_ge. }
  destruct (sz <=? 2)%nat eqn:E2.
  { intros [= <- <-] _. cbn [slice_to slice_from String.length]. sapp.
    unfold DecodeRune. rewrite E0, Hf, E1, E2.
    replace (_ <? sz)%nat with false; [repeat split; try done; lia |].
    symmetry. apply Nat.ltb_ge. apply Nat.leb_le in E2. cbn. lia. }
  destruct r1 as [|c2 r2]; [intros [= <- <-]; lia |].
  destruct (negb (cont (byte c2))) eqn:Ec2; [intros [= <- <-]; lia |].
  destruct (sz <=? 3)%nat eqn:E3.
  { intros [= <- <-] _. cbn [slice_to slice_from String.length]. sapp.
    unfold DecodeRune. rewrite E0, Hf, E1, E2, Ec2, E3.
    replace (_ <? sz)%nat with false; [repeat split; try done; lia |].
    symmetry. apply Nat.ltb_ge. apply Nat.leb_le in E3. cbn. lia. }
  destruct r2 as [|c3 r3]; [intros [= <- <-]; lia |].
  destruct (negb (cont (byte c3))) eqn:Ec3; [intros [= <- <-]; lia |].
  intros [= <- <-] _. cbn [slice_to slice_from String.length]. sapp.
  unfold DecodeRune. rewrite E0, Hf, E1, E2, Ec2, E3, Ec3.
  replace (_ <? sz)%nat with false; [repeat split; try done; lia |].
  symmetry. apply Nat.ltb_ge.
  apply first_inv in Hf as (_ & _ & [HC|[HC|HC]]); cbn; lia.
Qed.

End utf8_facts.

Module json_facts.
Import utf8 utf8_facts json.

(** [lia] on goals about lengths of strings. *)
Ltac len_lia :=
  cbn [String.length] in *;
  repeat match goal with
  | |- context [String.length ?s] =>
      let n := fresh "n" in set (n := String.length s) in *; clearbody n
  | H : context [String.length ?s] |- _ =>
      let n := fresh "n" in set (n := String.length s) in *; clearbody n
  end; lia.

(** One escaped byte is read back as that byte. *)
Lemma unquote_escape_byte (c : ascii) (rest : string -> option (string * string))
    (t : string) :
  (byte c <? 0x80)%N = true ->
  unquote_step rest (escape_byte c +:+ t) = prepend (String c EmptyString) (rest t).
Proof.
  destruct c as [[] [] [] [] [] [] [] []]; intros H; try discriminate H;
    vm_compute; reflexivity.
Qed.

Lemma escape_byte_length (c : ascii) : 1 <= String.length (escape_byte c).
Proof.
  unfold escape_byte. repeat case_match; cbn; lia.
Qed.

(** The escapes of U+2028 and U+2029. *)
Lemma unquote_line_separator (x : N) (rest : string -> option (string * string))
    (t : string) :
  x = 0x2028%N \/ x = 0x2029%N ->
  unquote_step rest
    (String backslash
       (String "u" (String "2" (String "0" (String "2"
          (String (hex (N.land x 0xF)) t)))))) =
  prepend (EncodeRune x) (rest t).
Proof. intros [-> | ->]; vm_compute; reflexivity. Qed.

(** A byte outside ASCII starts a rune. *)
Lemma unquote_step_rune (rest : string -> option (string * string)) (c : ascii)
    (r : string) :
  (0x80 <= byte c)%N ->
  unquote_step rest (String c r) =
  let '(rr, size) := DecodeRune (String c r) in
  prepend (EncodeRune rr) (rest (slice_from size (String c r))).
Proof.
  intros H. unfold unquote_step.
  replace (byte c =? 0x22)%N with false by (symmetry; apply N.eqb_neq; lia).
  replace (byte c =? 0x5C)%N with false by (symmetry; apply N.eqb_neq; lia).
  replace (byte c <? 0x20)%N with false by (symmetry; apply N.ltb_ge; lia).
  replace (byte c <? 0x80)%N with false by (symmetry; apply N.ltb_ge; lia).
  reflexivity.
Qed.

Lemma unquote_closing (f : nat) (t : string) :
  unquote_loop (S f) (String dquote t) = Some (EmptyString, t).
Proof. reflexivity. Qed.

Lemma prepend_Some (p s t : string) : prepend p (Some (s, t)) = Some (p +:+ s, t).
Proof. reflexivity. Qed.

(** What [appendString] writes between the quotes for a valid UTF-8
    string is read back as that string. *)
Lemma unquote_appendString_loop (n : nat) :
  forall s, ValidString_loop n s = true ->
  String.length s <= String.length (appendString_loop n s) /\
  forall fp t, String.length s < fp ->
    unquote_loop fp (appendString_loop n s +:+ String dquote t) = Some (s, t).
Proof.
  induction n as [|n IH]; intros s Hv.
  { destruct s; [| discriminate]. split; [cbn; lia |].
    intros [|fp] t Hfp; [cbn in Hfp; lia |]. apply unquote_closing. }
  destruct s as [|c r].
  { split; [cbn; lia |].
    intros [|fp] t Hfp; [cbn in Hfp; lia |]. apply unquote_closing. }
  cbn [ValidString_loop appendString_loop] in *.
  destruct (byte c <? 0x80)%N eqn:Ec.
  - destruct (IH r Hv) as [Hlen Hrt]. split.
    + rewrite str_length_app. pose proof (escape_byte_length c). cbn. lia.
    + intros [|fp] t Hfp; [lia |]. cbn in Hfp.
      rewrite str_app_assoc. cbn [unquote_loop].
      rewrite unquote_escape_byte by exact Ec.
      rewrite Hrt by lia. reflexivity.
  - destruct (DecodeRune (String c r)) as [rn size] eqn:Hd.
    destruct size as [|[|size]]; [discriminate Hv .. |].
    destruct (DecodeRune_prefix (String c r) EmptyString rn _ Hd) as
      (_ & _ & Hsplit & Hlen & _); [lia |].
    pose proof (EncodeRune_DecodeRune _ _ _ Hd ltac:(lia)) as Henc.
    destruct (IH _ Hv) as [Hlen' Hrt].
    assert (Hsz : String.length (slice_to (S (S size)) (String c r)) = S (S size)).
    { pose proof (f_equal String.length Hsplit) as E.
      rewrite str_length_app in E. len_lia. }
    replace ((rn =? RuneError)%N && (S (S size) =? 1)%nat) with false
      by (rewrite andb_false_r; reflexivity).
    destruct ((rn =? 0x2028)%N || (rn =? 0x2029)%N) eqn:Els.
    + assert (Hx : rn = 0x2028%N \/ rn = 0x2029%N).
      { apply orb_true_iff in Els as [E|E]; apply N.eqb_eq in E; auto. }
      split.
      * rewrite str_length_app. cbn [String.length].
        assert (String.length (EncodeRune rn) = 3) by (by destruct Hx as [-> | ->]).
        rewrite Henc in *. len_lia.
      * intros [|fp] t Hfp; [lia |].
        sapp. cbn [unquote_loop].
        rewrite unquote_line_separator by exact Hx.
        rewrite Hrt by len_lia.
        rewrite prepend_Some, Henc, Hsplit. reflexivity.
    + split.
      * rewrite str_length_app. len_lia.
      * intros [|fp] t Hfp; [lia |].
        rewrite str_app_assoc. cbn [unquote_loop].
        destruct (DecodeRune_prefix (String c r)
                    (appendString_loop n (slice_from (S (S size)) (String c r))
                       +:+ String dquote t) rn _ Hd) as (Hd' & Hfrom & _); [lia |].
        cbn [slice_to] in *. rewrite str_app_cons in *.
        rewrite unquote_step_rune by (apply N.ltb_ge in Ec; exact Ec).
        rewrite Hd', Hfrom.
        rewrite Hrt by len_lia.
        rewrite prepend_Some, Henc. cbn [slice_to]. rewrite str_app_cons.
        rewrite Hsplit. reflexivity.
Qed.

End json_facts.

(** ** Numbers *)

Module number_facts.
Import json.

Lemma span_digits_uint (u : Decimal.uint) (c : ascii) (t : string) :
  is_digit c = false ->
  span_digits (NilEmpty.string_of_uint u +:+ String c t) =
  (NilEmpty.string_of_uint u, String c t).
Proof.
  intros Hc. induction u; cbn [NilEmpty.string_of_uint]; sapp;
    cbn [span_digits]; rewrite ?Hc, ?IHu; reflexivity.
Qed.

(** The decimal digits of a positive number: a digit other than [0], then
    more digits. *)
Lemma to_uint_head (p : positive) :
  exists c u, NilZero.string_of_uint (Pos.to_uint p) = String c (NilEmpty.string_of_uint u) /\
              is_digit c = true /\ c <> "0"%char.
Proof.
  pose proof (DecimalPos.Unsigned.to_uint_nonnil p) as Hnil.
  pose proof (DecimalPos.Unsigned.to_uint_nonzero p) as Hzero.
  assert (Hnorm : Decimal.unorm (Pos.to_uint p) = Pos.to_uint p).
  { change (Pos.to_uint p) with (N.to_uint (Npos p)).
    rewrite <- DecimalN.Unsigned.to_of, DecimalN.Unsigned.of_to. reflexivity. }
  destruct (Pos.to_uint p) as [|u|u|u|u|u|u|u|u|u|u] eqn:E; [done | ..].
  { exfalso. rewrite DecimalFacts.unorm_D0 in Hnorm.
    unfold Decimal.unorm in Hnorm.
    pose proof (DecimalFacts.nzhead_nonzero u) as Hnz.
    destruct (Decimal.nzhead u) eqn:En; try discriminate Hnorm.
    - injection Hnorm as <-. by apply Hzero.
    - by eapply Hnz. }
  all: eexists _, u; cbn [NilZero.string_of_uint NilEmpty.string_of_uint];
    split; [reflexivity | split; [reflexivity | discriminate]].
Qed.

Lemma scan_number_digits (c0 c : ascii) (u : Decimal.uint) (t : string) :
  is_digit c0 = true -> c0 <> "0"%char -> c = ","%char \/ c = "}"%char ->
  scan_number (String c0 (NilEmpty.string_of_uint u +:+ String c t)) =
  Some (String c0 (NilEmpty.string_of_uint u), String c t).
Proof.
  intros Hd H0 Hc. unfold scan_number.
  assert (Hm : Ascii.eqb c0 "-" = false).
  { apply Ascii.eqb_neq. intros ->. discriminate Hd. }
  assert (Hz : Ascii.eqb c0 "0" = false) by (by apply Ascii.eqb_neq).
  rewrite Hm, Hd, Hz. cbn [negb].
  rewrite span_digits_uint by (by destruct Hc as [-> | ->]).
  destruct Hc as [-> | ->]; cbn; by rewrite str_app_nil_r.
Qed.

Lemma scan_number_negative (c0 c : ascii) (u : Decimal.uint) (t : string) :
  is_digit c0 = true -> c0 <> "0"%char -> c = ","%char \/ c = "}"%char ->
  scan_number (String "-" (String c0 (NilEmpty.string_of_uint u +:+ String c t))) =
  Some (String "-" (String c0 (NilEmpty.string_of_uint u)), String c t).
Proof.
  intros Hd H0 Hc. unfold scan_number.
  assert (Hz : Ascii.eqb c0 "0" = false) by (by apply Ascii.eqb_neq).
  change (Ascii.eqb "-" "-") with true. cbn iota. rewrite Hd, Hz. cbn [negb].
  rewrite span_digits_uint by (by destruct Hc as [-> | ->]).
  destruct Hc as [-> | ->]; cbn; by rewrite str_app_nil_r.
Qed.

(** A number written by [Itoa] is scanned whole when a comma or a closing
    brace follows. *)
Lemma scan_number_Itoa (z : Z) (c : ascii) (t : string) :
  c = ","%char \/ c = "}"%char ->
  scan_number (Itoa z +:+ String c t) = Some (Itoa z, String c t) /\
  exists c0 r, Itoa z = String c0 r /\ (is_digit c0 = true \/ c0 = "-"%char).
Proof.
  intros Hc. unfold Itoa. destruct z as [|p|p]; cbn [Z.to_int NilZero.string_of_int].
  - split; [by destruct Hc as [-> | ->] |]. exists "0"%char, EmptyString. by split; [| left].
  - destruct (to_uint_head p) as (c0 & u & -> & Hd & H0). sapp. split.
    + by apply scan_number_digits.
    + eauto.
  - destruct (to_uint_head p) as (c0 & u & -> & Hd & H0). sapp. split.
    + by apply scan_number_negative.
    + eauto.
Qed.

(** [ParseInt] reads back what [Itoa] wrote, within the range of
    [int64]. *)
Lemma parse_int64_Itoa (z : Z) :
  (- 2 ^ 63 <= z < 2 ^ 63)%Z -> parse_int64 (Itoa z) = Some z.
Proof.
  intros Hz. unfold parse_int64, Itoa.
  rewrite NilZero.isi.
  - rewrite DecimalZ.of_to.
    replace (- 2 ^ 63 <=? z)%Z with true by (symmetry; apply Z.leb_le; lia).
    replace (z <? 2 ^ 63)%Z with true by (symmetry; apply Z.ltb_lt; lia).
    reflexivity.
  - destruct z; cbn; [discriminate | | discriminate].
    intros [= H]. by apply (DecimalPos.Unsigned.to_uint_nonnil p).
  - destruct z; cbn; [discriminate | discriminate |].
    intros [= H]. by apply (DecimalPos.Unsigned.to_uint_nonnil p).
Qed.

End number_facts.

(** ** The Frame Codec: a message written and read back *)

Module codec_facts.
Import utf8 json json_facts number_facts.

Ltac snorm :=
  repeat first [rewrite str_app_assoc | rewrite str_app_cons | rewrite str_app_nil_l].

Lemma skip_space_id (c : ascii) (r : string) :
  isSpace c = false -> skip_space (String c r) = String c r.
Proof. intros H. cbn [skip_space]. by rewrite H. Qed.

Lemma appendString_app (s t : string) :
  appendString s +:+ t =
  String dquote (appendString_loop (String.length s) s +:+ String dquote t).
Proof. unfold appendString. snorm. reflexivity. Qed.

Lemma unquote_appendString (s t : string) :
  ValidString s = true ->
  unquote (appendString_loop (String.length s) s +:+ String dquote t) = Some (s, t).
Proof.
  intros H. unfold unquote.
  destruct (unquote_appendString_loop (String.length s) s H) as [Hlen Hrt].
  apply Hrt. rewrite str_length_app. len_lia.
Qed.

(** A string value. *)
Lemma parse_value_string (f : nat) (s t : string) :
  ValidString s = true ->
  parse_value (S f) (appendString s +:+ t) = Some (VString s, t).
Proof.
  intros H. cbn [parse_value]. rewrite appendString_app. unfold value_step.
  rewrite skip_space_id by reflexivity.
  change (byte dquote =? 0x22)%N with true. cbn iota.
  by rewrite unquote_appendString.
Qed.

Lemma digit_tests (c : ascii) :
  is_digit c = true \/ c = "-"%char ->
  isSpace c = false /\ (byte c =? 0x22)%N = false /\ (byte c =? 0x7B)%N = false /\
  (byte c =? 0x5B)%N = false /\ (byte c =? 0x74)%N = false /\
  (byte c =? 0x66)%N = false /\ (byte c =? 0x6E)%N = false.
Proof.
  intros [H | ->]; [| by repeat split].
  unfold is_digit in H. apply andb_true_iff in H as [H1 H2].
  apply N.leb_le in H1, H2. unfold isSpace.
  repeat split; rewrite ?orb_false_iff; repeat split; apply N.eqb_neq; lia.
Qed.

(** A number written by [Itoa]. *)
Lemma parse_value_number (f : nat) (z : Z) (c : ascii) (t : string) :
  c = ","%char \/ c = "}"%char ->
  parse_value (S f) (Itoa z +:+ String c t) = Some (VNumber (Itoa z), String c t).
Proof.
  intros Hc. destruct (scan_number_Itoa z c t Hc) as [Hscan (c0 & r & E & Hc0)].
  destruct (digit_tests c0 Hc0) as (H0 & H1 & H2 & H3 & H4 & H5 & H6).
  cbn [parse_value]. unfold value_step. rewrite E in *. rewrite str_app_cons in *.
  rewrite skip_space_id by exact H0.
  cbn zeta. rewrite H1, H2, H3, H4, H5, H6, Hscan. reflexivity.
Qed.

Lemma concat_cons (x y : string) (l : list string) :
  String.concat "," (x :: y :: l) = x +:+ "," +:+ String.concat "," (y :: l).
Proof. reflexivity. Qed.

(** One member, then [tail] (a comma and more members, or the closing
    brace): the key and the value are read, and [tail] is what is left. *)
Lemma members_step_member
    (val : string -> option (value * string))
    (members : string -> option (list (string * value) * string))
    (k : string) (v : value) (c : ascii) (t : string) :
  ValidString k = true ->
  c = ","%char \/ c = "}"%char ->
  val (marshal_value v +:+ String c t) = Some (v, String c t) ->
  members_step val members
    (appendString k +:+ String ":" (marshal_value v +:+ String c t)) =
  if Ascii.eqb c ","%char
  then match members t with
       | Some (m, rest) => Some ((k, v) :: m, rest)
       | None => None
       end
  else Some ([(k, v)], t).
Proof.
  intros Hk Hc Hv. rewrite appendString_app. unfold members_step.
  rewrite skip_space_id by reflexivity.
  change (byte dquote =? 0x22)%N with true. cbn [negb].
  rewrite unquote_appendString by exact Hk.
  rewrite skip_space_id by reflexivity.
  change (byte ":" =? 0x3A)%N with true. cbn [negb].
  rewrite Hv.
  destruct Hc as [-> | ->]; reflexivity.
Qed.

(** The members of an object, as [json.Marshal] writes them, are read back
    when each value is. *)
Lemma parse_members_print (d : nat) (m : list (string * value)) :
  m <> [] ->
  Forall (fun kv =>
            ValidString (fst kv) = true /\
            forall f c t, d <= f -> c = ","%char \/ c = "}"%char ->
              parse_value f (marshal_value (snd kv) +:+ String c t) =
              Some (snd kv, String c t)) m ->
  forall f t, d + length m <= f ->
    parse_members f
      (String.concat ","
         (map (fun kv => appendString (fst kv) +:+ ":" +:+ marshal_value (snd kv)) m)
       +:+ String "}" t) = Some (m, t).
Proof.
  induction m as [|[k v] m IH]; [done |].
  intros _ HF f t Hf. inversion HF as [|? ? [Hk Hv] HF']; subst.
  cbn [fst snd] in *.
  destruct f as [|f]; [cbn in Hf; lia |]. cbn [parse_members].
  destruct m as [|kv' m'].
  - cbn [map String.concat fst snd]. snorm.
    rewrite (members_step_member _ _ k v "}" t Hk); [reflexivity | by right |].
    apply Hv; [cbn in Hf; lia | by right].
  - cbn [map]. rewrite concat_cons. cbn [fst snd]. snorm.
    rewrite (members_step_member _ _ k v "," _ Hk); [| by left |].
    + change (Ascii.eqb "," ",") with true. cbn iota.
      change (map _ (kv' :: m')) with
        (map (fun kv => appendString (fst kv) +:+ ":" +:+ marshal_value (snd kv))
             (kv' :: m')) in IH.
      rewrite IH; [reflexivity | done | exact HF' | cbn in *; lia].
    + apply Hv; [cbn in Hf; lia | by left].
Qed.

Lemma marshal_value_VMap (m : list (string * value)) :
  marshal_value (VMap m) =
  "{" +:+ String.concat ","
            (map (fun kv => appendString (fst kv) +:+ ":" +:+ marshal_value (snd kv)) m)
      +:+ "}".
Proof. reflexivity. Qed.

Lemma concat_head (kv : string * value) (l : list (string * value)) (t : string) :
  exists x,
    String.concat ","
      (map (fun kv => appendString (fst kv) +:+ ":" +:+ marshal_value (snd kv)) (kv :: l))
    +:+ t = String dquote x.
Proof.
  destruct l; cbn [map]; [cbn [String.concat] | rewrite concat_cons];
    snorm; rewrite appendString_app; eauto.
Qed.

(** An object is read back when each of its values is. *)
Lemma parse_value_object (d : nat) (m : list (string * value)) :
  Forall (fun kv =>
            ValidString (fst kv) = true /\
            forall f c t, d <= f -> c = ","%char \/ c = "}"%char ->
              parse_value f (marshal_value (snd kv) +:+ String c t) =
              Some (snd kv, String c t)) m ->
  forall f t, d + length m + 1 <= f ->
    parse_value f (marshal_value (VMap m) +:+ t) = Some (VMap m, t).
Proof.
  intros HF f t Hf. destruct f as [|f]; [lia |].
  rewrite marshal_value_VMap. snorm. cbn [parse_value]. unfold value_step.
  rewrite skip_space_id by reflexivity.
  change (byte "{" =? 0x22)%N with false. change (byte "{" =? 0x7B)%N with true.
  cbn iota zeta.
  destruct m as [|kv m].
  - cbn [map String.concat]. snorm. by rewrite skip_space_id.
  - destruct (concat_head kv m (String "}" t)) as [x Hx].
    rewrite Hx. rewrite skip_space_id by reflexivity.
    change (byte dquote =? 0x7D)%N with false. cbn iota.
    rewrite <- Hx.
    rewrite (parse_members_print d); [reflexivity | done | exact HF | cbn in *; lia].
Qed.

Lemma forallb_Forall {A} (p : A -> bool) (l : list A) :
  forallb p l = true -> Forall (fun x => p x = true) l.
Proof.
  induction l as [|x l IH]; cbn; [constructor |].
  intros H. apply andb_true_iff in H as [Hx Hl]. constructor; auto.
Qed.

(** An argument of one of the two expected shapes is read back. *)
Lemma parse_value_arg (v : value) :
  expected_shape v = true ->
  forall f c t,
    match v with VMap m => length m + 2 | _ => 1 end <= f ->
    c = ","%char \/ c = "}"%char ->
    parse_value f (marshal_value v +:+ String c t) = Some (v, String c t).
Proof.
  destruct v as [| | |s| |m]; try discriminate; cbn [expected_shape]; intros H f c t Hf Hc.
  - destruct f as [|f]; [lia |]. by apply parse_value_string.
  - apply andb_true_iff in H as [H _].
    apply (parse_value_object 1); [| lia].
    apply forallb_Forall in H. eapply Forall_impl; [exact H |].
    intros [k w]. unfold string_entry. cbn [fst snd]. intros E.
    apply andb_true_iff in E as [Ek Ew]. split; [exact Ek |].
    destruct w; try discriminate.
    intros f' c' t' Hf' _. destruct f' as [|f']; [lia |].
    by apply parse_value_string.
Qed.

(** *** Storing the argument *)

Lemma map_set_last (k : string) (v : value) (acc : list (string * value)) :
  Forall (fun kv => String.compare (fst kv) k = Lt) acc ->
  map_set k v acc = acc ++ [(k, v)].
Proof.
  induction 1 as [|[k' v'] acc Hk _ IH]; [reflexivity |].
  cbn [map_set fst] in *. rewrite String.compare_antisym, Hk. cbn.
  by rewrite IH.
Qed.

Lemma sorted_keys_mid (acc : list (string * value)) (kv : string * value)
    (m : list (string * value)) :
  sorted_keys (acc ++ kv :: m) = true ->
  Forall (fun kv' => String.compare (fst kv') (fst kv) = Lt) acc.
Proof.
  induction acc as [|a acc IH]; [constructor |].
  cbn [app sorted_keys]. intros H. apply andb_true_iff in H as [Ha Hs].
  constructor; [| by apply IH].
  rewrite forallb_app in Ha. apply andb_true_iff in Ha as [_ Ha].
  cbn [forallb] in Ha. apply andb_true_iff in Ha as [Ha _].
  by destruct (String.compare (fst a) (fst kv)).
Qed.

Lemma to_interface_VMap (m : list (string * value)) :
  to_interface (VMap m) =
  VMap (fold_left (fun acc kv => map_set (fst kv) (to_interface (snd kv)) acc) m []).
Proof. reflexivity. Qed.

Lemma fold_map_set (m : list (string * value)) :
  forall acc,
    forallb string_entry m = true -> sorted_keys (acc ++ m) = true ->
    fold_left (fun acc kv => map_set (fst kv) (to_interface (snd kv)) acc) m acc =
    acc ++ m.
Proof.
  induction m as [|[k v] m IH]; intros acc He Hs; cbn [fold_left].
  - by rewrite app_nil_r.
  - cbn [forallb] in He. apply andb_true_iff in He as [Hkv He].
    unfold string_entry in Hkv. cbn [fst snd] in *.
    apply andb_true_iff in Hkv as [_ Hv]. destruct v; try discriminate.
    cbn [to_interface].
    rewrite map_set_last by (by apply (sorted_keys_mid acc (k, VString s) m)).
    rewrite IH; [by rewrite <- app_assoc | exact He | by rewrite <- app_assoc].
Qed.

(** What [json.Unmarshal] stores in [Arg] for an argument of an expected
    shape is that argument. *)
Lemma to_interface_expected (v : value) :
  expected_shape v = true -> to_interface v = v.
Proof.
  destruct v as [| | |s| |m]; try discriminate; [reflexivity |].
  cbn [expected_shape]. intros H. apply andb_true_iff in H as [He Hs].
  rewrite to_interface_VMap. by rewrite (fold_map_set m []).
Qed.

(** *** Storing the members of a message *)

Lemma store_members_of (msg : Message) :
  well_formed msg = true -> store_members (members_of msg) zero_Message = Some msg.
Proof.
  unfold well_formed. intros H.
  repeat match type of H with (_ && _)%bool = true =>
    let H' := fresh "H" in apply andb_true_iff in H as [H H'] end.
  destruct msg as [n o a r q st]. cbn [NodeID Opcode Arg Requester ReqID Status] in *.
  unfold members_of, store_members.
  cbn [NodeID Opcode Arg Requester ReqID Status app fold_left fst snd].
  change (store_field "nodeid" (VString n) zero_Message) with
    (Some {| NodeID := n; Opcode := EmptyString; Arg := VNil;
             Requester := EmptyString; ReqID := 0; Status := EmptyString |}).
  cbn iota.
  change (store_field "opcode" (VString o) ?m) with
    (Some {| NodeID := n; Opcode := o; Arg := VNil;
             Requester := EmptyString; ReqID := 0; Status := EmptyString |}).
  cbn iota.
  change (store_field "arg" a ?m) with
    (Some {| NodeID := n; Opcode := o; Arg := to_interface a;
             Requester := EmptyString; ReqID := 0; Status := EmptyString |}).
  cbn iota. rewrite to_interface_expected by assumption.
  change (store_field "requester" (VString r) ?m) with
    (Some {| NodeID := n; Opcode := o; Arg := a;
             Requester := r; ReqID := 0; Status := EmptyString |}).
  destruct (q =? 0)%Z eqn:Eq; destruct (String.eqb st EmptyString) eqn:Est;
    cbn [app fold_left fst snd].
  - apply Z.eqb_eq in Eq. apply String.eqb_eq in Est. by subst.
  - apply Z.eqb_eq in Eq. subst q. reflexivity.
  - apply String.eqb_eq in Est. subst st.
    change (store_field "reqId" (VNumber (Itoa q)) ?m) with
      (match parse_int64 (Itoa q) with
       | Some z => Some {| NodeID := n; Opcode := o; Arg := a;
                           Requester := r; ReqID := z; Status := EmptyString |}
       | None => None
       end).
    rewrite parse_int64_Itoa; [reflexivity |].
    apply Z.leb_le in H2. apply Z.ltb_lt in H1. lia.
  - change (store_field "reqId" (VNumber (Itoa q)) ?m) with
      (match parse_int64 (Itoa q) with
       | Some z => Some {| NodeID := n; Opcode := o; Arg := a;
                           Requester := r; ReqID := z; Status := EmptyString |}
       | None => None
       end).
    rewrite parse_int64_Itoa; [reflexivity |].
    apply Z.leb_le in H2. apply Z.ltb_lt in H1. lia.
Qed.

(** *** The whole text *)

Lemma members_length (m : list (string * value)) :
  length m <=
  String.length
    (String.concat ","
       (map (fun kv => appendString (fst kv) +:+ ":" +:+ marshal_value (snd kv)) m)).
Proof.
  induction m as [|kv m IH]; [cbn; lia |].
  destruct m as [|kv' m].
  - cbn [map String.concat]. unfold appendString. snorm. cbn. lia.
  - cbn [map] in *. rewrite concat_cons, !str_length_app. cbn [length] in *. len_lia.
Qed.

Lemma marshal_length (msg : Message) :
  match Arg msg with VMap m => length m | _ => 0 end + 4 <=
  String.length (json_Marshal msg).
Proof.
  unfold json_Marshal. rewrite marshal_value_VMap. unfold members_of.
  cbn [map app fst snd]. rewrite !concat_cons, !str_length_app.
  destruct (Arg msg) as [| | | | |m]; try len_lia.
  rewrite marshal_value_VMap, !str_length_app.
  pose proof (members_length m). len_lia.
Qed.

(** The text that [json.Marshal] writes for a well-formed message is the
    object of its members. *)
Lemma parse_marshal (msg : Message) :
  well_formed msg = true ->
  json.parse (json_Marshal msg) = Some (VMap (members_of msg)).
Proof.
  intros Hwf. pose proof (marshal_length msg) as Hlen.
  unfold well_formed in Hwf.
  repeat match type of Hwf with (_ && _)%bool = true =>
    let H' := fresh "H" in apply andb_true_iff in Hwf as [Hwf H'] end.
  assert (Hpv : parse_value (2 * String.length (json_Marshal msg) + 2)
                  (json_Marshal msg +:+ EmptyString)
                = Some (VMap (members_of msg), EmptyString)).
  { unfold json_Marshal at 2.
    apply (parse_value_object
             (match Arg msg with VMap m => length m + 2 | _ => 1 end)).
    - unfold members_of. repeat apply Forall_app_2; repeat apply Forall_cons_2;
        try apply Forall_nil_2; cbn [fst snd].
      + split; [reflexivity |]. intros [|f] c t Hf _; [destruct (Arg msg); lia |].
        by apply parse_value_string.
      + split; [reflexivity |]. intros [|f] c t Hf _; [destruct (Arg msg); lia |].
        by apply parse_value_string.
      + split; [reflexivity |]. intros f c t Hf Hc. by apply parse_value_arg.
      + split; [reflexivity |]. intros [|f] c t Hf _; [destruct (Arg msg); lia |].
        by apply parse_value_string.
      + destruct (ReqID msg =? 0)%Z; [constructor |].
        apply Forall_cons_2; [| constructor]. split; [reflexivity |].
        intros [|f] c t Hf Hc; [destruct (Arg msg); lia |].
        by apply parse_value_number.
      + destruct (String.eqb (Status msg) EmptyString); [constructor |].
        apply Forall_cons_2; [| constructor]. split; [reflexivity |].
        intros [|f] c t Hf Hc; [destruct (Arg msg); lia |].
        by apply parse_value_string.
    - assert (length (members_of msg) <= 6).
      { unfold members_of. rewrite !length_app.
        destruct (ReqID msg =? 0)%Z, (String.eqb (Status msg) EmptyString); cbn; lia. }
      destruct (Arg msg); lia. }
  rewrite str_app_nil_r in Hpv. unfold json.parse. by rewrite Hpv.
Qed.

(** [json.Unmarshal] gives back a well-formed message from what
    [json.Marshal] wrote for it. *)
Lemma Unmarshal_Marshal (msg : Message) :
  well_formed msg = true -> json_Unmarshal (json_Marshal msg) = Some msg.
Proof.
  intros Hwf. unfold json_Unmarshal. rewrite parse_marshal by exact Hwf.
  by apply store_members_of.
Qed.

End codec_facts.




Lemma parseMessages_accepts_witness :
  Forall2 (fun body msg => contains_byte "$"%char body = false /\
                           json_Unmarshal body = Some msg)
    [json_Marshal Sample.login_msg; json_Marshal Sample.heartbeat]
    [Sample.login_msg; Sample.heartbeat] /\
  parseMessages (stream [json_Marshal Sample.login_msg; json_Marshal Sample.heartbeat]) =
  [Sample.login_msg; Sample.heartbeat].
Proof.
  assert (HF : Forall2 (fun body msg => contains_byte "$"%char body = false /\
                                        json_Unmarshal body = Some msg)
                 [json_Marshal Sample.login_msg; json_Marshal Sample.heartbeat]
                 [Sample.login_msg; Sample.heartbeat]).
  { repeat constructor; vm_compute; reflexivity. }
  split; [exact HF |].
  apply (proj2 (proj2 (parseMessages_accepts
           (stream [json_Marshal Sample.login_msg; json_Marshal Sample.heartbeat])))
           _ _ HF eq_refl).
Defined.

(** The condition on UTF-8 is needed as well: [json.Marshal] writes an
    invalid byte as the escape of U+FFFD, so the message that comes back
    holds the three bytes of U+FFFD in its place. *)
Example codec_invalid_utf8 :
  parseMessages (frame (json_Marshal (Sample.report "5" (String "255"%char EmptyString)))) =
  [Sample.report "5" (utf8.EncodeRune utf8.RuneError)].
Proof. vm_compute. reflexivity. Qed.
